(** * unplugin-typia: the transform cache and the Bun dispatch layer

    A shallow embedding of
    - [packages/unplugin-typia/src/core/cache.ts] (the transform cache:
      [getCache], [setCache], [getKey], [getCachePath], [prepareCacheDir],
      [isWritable], [hash], [getHashComment]) and
    - [src/bun.ts] (the Bun adapter: [taggedTransform] and the [setup]
      function of [bunTypiaPlugin]),
    followed by the properties the specification states about them.

    JavaScript strings are [string]s, the file system is a finite map from
    paths to entries, and the asynchronous functions are computations in a
    state-and-exception monad over the [World] they run in (file system,
    installed packages, the two module-level variables of cache.ts, and the
    trace of host operations performed so far). *)

From Stdlib Require Import Ascii String DecimalString.
From stdpp Require Import base option list strings gmap.

Local Open Scope string_scope.

(** ** Strings *)

Module Str.

(** [String.prototype.endsWith(searchString)]: the search string is compared
    with the slice of the same length that ends the receiver. *)
Definition endsWith (s searchString : string) : bool :=
  let searchLength := String.length searchString in
  let len := String.length s in
  if Nat.ltb len searchLength then false
  else String.eqb (String.substring (len - searchLength) searchLength s)
                  searchString.

(** [str.replace(/\.js$/, replacement)], for a replacement text without [$]
    patterns: the pattern is anchored at the end of the input (no [m] flag),
    so at most the final [.js] is replaced; a receiver that does not end in
    [.js] is returned as it is. *)
Definition replace_js_end (s replacement : string) : string :=
  if endsWith s ".js"
  then String.substring 0 (String.length s - 3) s +:+ replacement
  else s.

(** [c] occurs in [s]. *)
Fixpoint contains (c : ascii) (s : string) : bool :=
  match s with
  | EmptyString => false
  | String a s' => if Ascii.eqb a c then true else contains c s'
  end.

End Str.

(** ** The world the plugin runs in *)

(** What a path of the file system holds. *)
Inductive Entry :=
  | File (content : string)
  | Directory.

(** What [readPackageJSON(name)] of pkg-types finds: the package cannot be
    resolved (the promise rejects), or its package.json is read and may or
    may not carry a [version] field. *)
Inductive PkgLookup :=
  | PkgUnresolved
  | PkgJSON (version : option string).

(** Exceptions: a plain [Error] with its message, the [SyntaxError] of
    [new RegExp], a failed system call with its error code, and the failed
    resolution of a package. *)
Inductive Exn :=
  | Error (message : string)
  | SyntaxError (pattern : string)
  | IOError (code : string) (path : string)
  | ResolveError (name : string).

(** Host operations, in the order they are issued. *)
Inductive Event :=
  | EvMkdir (path : string)
  | EvAccess (path : string)
  | EvExistsSync (path : string)
  | EvReadFile (path : string)
  | EvWriteFile (path : string)
  | EvRm (path : string)
  | EvBunExists (path : string)
  | EvBunText (path : string)
  | EvBunWrite (path : string)
  | EvReadPackageJSON (name : string)
  | EvTransform (source id : string).

Record World := mkWorld {
  (** the file system: regular files and directories by path *)
  fs : gmap string Entry;
  (** the paths on which [access(path, W_OK)] is refused *)
  readonly : gset string;
  (** the installed typia package *)
  typiaPkg : PkgLookup;
  (** [let cacheDir: string | null = null] of cache.ts *)
  cacheDir : option string;
  (** [let typiaVersion: string | undefined] of cache.ts *)
  typiaVersion : option string;
  (** the host operations performed so far *)
  trace : list Event;
}.

Definition set_fs (f : gmap string Entry → gmap string Entry) (w : World) : World :=
  mkWorld (f (fs w)) (readonly w) (typiaPkg w) (cacheDir w) (typiaVersion w) (trace w).
Definition set_cacheDir (d : option string) (w : World) : World :=
  mkWorld (fs w) (readonly w) (typiaPkg w) d (typiaVersion w) (trace w).
Definition set_typiaVersion (v : option string) (w : World) : World :=
  mkWorld (fs w) (readonly w) (typiaPkg w) (cacheDir w) v (trace w).
Definition log (e : Event) (w : World) : World :=
  mkWorld (fs w) (readonly w) (typiaPkg w) (cacheDir w) (typiaVersion w) (trace w ++ [e]).

(** A process that has just loaded cache.ts: both module variables hold
    their initial values and nothing has been done yet. *)
Definition freshProcess (files : gmap string Entry) (ro : gset string)
    (pkg : PkgLookup) : World :=
  mkWorld files ro pkg None None [].

(** ** Computations: state and exceptions *)

Inductive Result (A : Type) :=
  | Ok (a : A)
  | Throw (e : Exn).
Arguments Ok {A} a.
Arguments Throw {A} e.

(** An [async] function: it runs in a world, changes it, and either returns
    or throws; what it did before throwing stays done. *)
Definition M (A : Type) : Type := World → Result A * World.

Definition ret {A} (a : A) : M A := λ w, (Ok a, w).
Definition throw {A} (e : Exn) : M A := λ w, (Throw e, w).
Definition bind {A B} (m : M A) (k : A → M B) : M B :=
  λ w, match m w with
       | (Ok a, w') => k a w'
       | (Throw e, w') => (Throw e, w')
       end.
(** [try { m } catch { h }] *)
Definition catch {A} (m : M A) (h : M A) : M A :=
  λ w, match m w with
       | (Ok a, w') => (Ok a, w')
       | (Throw _, w') => h w'
       end.
Definition gets {A} (f : World → A) : M A := λ w, (Ok (f w), w).
Definition modify (f : World → World) : M unit := λ w, (Ok tt, f w).

(** The notations [x ← m; k] and [m;; k] of stdpp sequence two computations
    (an [await] on [m], then [k]). *)
Global Instance M_ret : MRet M := @ret.
Global Instance M_bind : MBind M := λ A B k m, bind m k.

(** The parts of the host that cache.ts and bun.ts call and that are pure
    functions of their arguments: runtime detection ([isBun] of
    core/utils.ts), the two digests, the path functions of pathe, and whether
    a string is a well-formed regular expression for [new RegExp]. *)
Class Platform := {
  isBun : bool;
  Bun_hash : string → N;
  md5_hex : string → string;
  basename : string → string;
  dirname : string → string;
  join : string → string → string;
  RegExp_wellformed : string → bool;
}.

(** ** Host primitives *)

Module Host.

Section primitives.
Context `{Platform}.

(** [fs.promises.mkdir(path, { recursive: true })]: an existing directory
    is left alone, a regular file in the way is an error. The ancestors the
    call also creates are not tracked: nothing below addresses them. *)
Definition mkdir_recursive (path : string) : M unit :=
  modify (log (EvMkdir path));;
  e ← gets (λ w : World, fs w !! path);
  match e with
  | Some (File _) => throw (IOError "EEXIST" path)
  | Some Directory => ret tt
  | None => modify (set_fs (insert path Directory))
  end.

(** [fs.promises.access(path, constants.W_OK)] *)
Definition access_W_OK (path : string) : M unit :=
  modify (log (EvAccess path));;
  e ← gets (λ w : World, fs w !! path);
  ro ← gets (λ w : World, bool_decide (path ∈ readonly w));
  match e with
  | None => throw (IOError "ENOENT" path)
  | Some _ => if ro : bool then throw (IOError "EACCES" path) else ret tt
  end.

(** [existsSync(path)] *)
Definition existsSync (path : string) : M bool :=
  modify (log (EvExistsSync path));;
  gets (λ w : World, bool_decide (is_Some (fs w !! path))).

(** [fs.promises.readFile(path, { encoding: 'utf8' })] *)
Definition readFile (path : string) : M string :=
  modify (log (EvReadFile path));;
  e ← gets (λ w : World, fs w !! path);
  match e with
  | Some (File content) => ret content
  | Some Directory => throw (IOError "EISDIR" path)
  | None => throw (IOError "ENOENT" path)
  end.

(** [fs.promises.writeFile(path, data, { encoding: 'utf8' })]: the parent
    directory must exist; the file is created or replaced. *)
Definition writeFile (path data : string) : M unit :=
  modify (log (EvWriteFile path));;
  e ← gets (λ w : World, fs w !! path);
  p ← gets (λ w : World, fs w !! dirname path);
  match e, p with
  | Some Directory, _ => throw (IOError "EISDIR" path)
  | _, Some Directory => modify (set_fs (insert path (File data)))
  | _, Some (File _) => throw (IOError "ENOTDIR" path)
  | _, None => throw (IOError "ENOENT" path)
  end.

(** [fs.promises.rm(path)], without [force] and without [recursive] *)
Definition rm (path : string) : M unit :=
  modify (log (EvRm path));;
  e ← gets (λ w : World, fs w !! path);
  match e with
  | Some (File _) => modify (set_fs (delete path))
  | Some Directory => throw (IOError "ERR_FS_EISDIR" path)
  | None => throw (IOError "ENOENT" path)
  end.

(** [Bun.file(path).exists()]: true for a regular file only *)
Definition Bun_file_exists (path : string) : M bool :=
  modify (log (EvBunExists path));;
  gets (λ w : World, match fs w !! path with Some (File _) => true | _ => false end).

(** [Bun.file(path).text()] *)
Definition Bun_file_text (path : string) : M string :=
  modify (log (EvBunText path));;
  e ← gets (λ w : World, fs w !! path);
  match e with
  | Some (File content) => ret content
  | Some Directory => throw (IOError "EISDIR" path)
  | None => throw (IOError "ENOENT" path)
  end.

(** [Bun.write(path, data, { createPath: true })]: the parent directory
    is created when it is missing. *)
Definition Bun_write_createPath (path data : string) : M unit :=
  modify (log (EvBunWrite path));;
  e ← gets (λ w : World, fs w !! path);
  p ← gets (λ w : World, fs w !! dirname path);
  match e, p with
  | Some Directory, _ => throw (IOError "EISDIR" path)
  | _, Some (File _) => throw (IOError "ENOTDIR" path)
  | _, _ =>
      modify (set_fs (insert (dirname path) Directory));;
      modify (set_fs (insert path (File data)))
  end.

(** [readPackageJSON('typia').then(pkg => pkg.version)] *)
Definition readPackageJSON_version (name : string) : M (option string) :=
  modify (log (EvReadPackageJSON name));;
  pkg ← gets typiaPkg;
  match pkg with
  | PkgUnresolved => throw (ResolveError name)
  | PkgJSON version => ret version
  end.

End primitives.

End Host.

(** ** cache.ts *)

(** The branded string types of core/types.ts; [wrap] is the identity. *)
Abbreviation ID := string (only parsing).
Abbreviation Source := string (only parsing).
Abbreviation Data := string (only parsing).
Abbreviation CacheKey := string (only parsing).
Abbreviation CachePath := string (only parsing).

(** [ResolvedOptions['cache']] *)
Record ResolvedCacheOptions := {
  enable : bool;
  base : string;
}.

Module Cache.

Section cache.
Context `{Platform}.

Definition isWritable (filename : string) : M bool :=
  catch (Host.access_W_OK filename;; ret true) (ret false).

Definition prepareCacheDir (opts : ResolvedCacheOptions) : M unit :=
  cd ← gets cacheDir;
  match cd with
  | Some _ => ret tt
  | None =>
      let _cacheDir := base opts in
      Host.mkdir_recursive _cacheDir;;
      writable ← isWritable _cacheDir;
      if negb writable
      then throw (Error "Cache directory is not writable.")
      else modify (set_cacheDir (Some _cacheDir))
  end.

(** Create hash string: [Bun.hash(input).toString()] under Bun, the md5
    digest in hexadecimal otherwise. *)
Definition hash (input : string) : string :=
  if isBun
  then NilZero.string_of_uint (N.to_uint (Bun_hash input))
  else md5_hex input.

(** Get cache key *)
Definition getKey (id : ID) (source : Source) : CacheKey :=
  let h := hash source in
  let filebase := basename (dirname id) +:+ "_" +:+ basename id in
  filebase +:+ "_" +:+ h.

(** Get storage *)
Definition getCachePath (key : CacheKey) (opts : ResolvedCacheOptions)
    : CachePath :=
  join (base opts) key.

(** The template literal of [getHashComment], for a version variable [v]:
    [typiaVersion ?? ''] renders an undefined version as the empty string. *)
Definition hashCommentOf (v : option string) (cachePath : CacheKey) : string :=
  "/* unplugin-typia-" +:+ default "" v +:+ "-" +:+ cachePath +:+ " */".

Definition getHashComment (cachePath : CacheKey) : M string :=
  tv ← gets typiaVersion;
  v ← match tv with
      | Some v => ret (Some v)
      | None => Host.readPackageJSON_version "typia"
      end;
  modify (set_typiaVersion v);;
  ret (hashCommentOf v cachePath).

(** The end of [getCache], from [const hashComment = ...] on; it is shared
    by the two branches that read the entry. *)
Definition validate (key : CacheKey) (data : string) : M (option Data) :=
  hashComment ← getHashComment key;
  if Str.endsWith data hashComment
  then ret (Some data)
  else ret None.

(** Get cache *)
Definition getCache (id : ID) (source : Source)
    (opts : ResolvedCacheOptions) : M (option Data) :=
  if negb (enable opts) then ret None else
  prepareCacheDir opts;;
  let key := getKey id source in
  let path := getCachePath key opts in
  if isBun then
    present ← Host.Bun_file_exists path;
    if negb present then ret None else
    data ← Host.Bun_file_text path;
    validate key data
  else
    present ← Host.existsSync path;
    if negb present then ret None else
    data ← Host.readFile path;
    validate key data.

(** Set cache; [data] is [None] when the caller passes [null]. *)
Definition setCache (id : ID) (source : Source) (data : option Data)
    (opts : ResolvedCacheOptions) : M unit :=
  if negb (enable opts) then ret tt else
  prepareCacheDir opts;;
  let key := getKey id source in
  let path := getCachePath key opts in
  hashComment ← getHashComment key;
  match data with
  | None => Host.rm path
  | Some data =>
      let cache := data +:+ hashComment in
      if isBun
      then Host.Bun_write_createPath path cache
      else Host.writeFile path cache
  end.

End cache.

End Cache.

(** ** bun.ts *)

(** A regular expression object, by its source text. *)
Inductive RegExp :=
  | RegExpOf (pattern : string).

(** The values the [include] option can hold at run time. *)
#[warnings="-register-all"]
Inductive JsValue :=
  | JsUndefined
  | JsNull
  | JsBoolean (b : bool)
  | JsNumber (n : Z)
  | JsString (s : string)
  | JsRegExp (r : RegExp)
  | JsArray (elements : list JsValue)
  | JsObject.

(** [TransformResult] of unplugin: what a [transform] hook resolves to. These
    are the values of the declared type; the [default] branch of the
    [switch] in [taggedTransform] is not reached by any of them. *)
Inductive TransformResult :=
  | TrNull
  | TrUndefined
  | TrString (code : string)
  | TrObject (code : string).

(** The hooks of [UnpluginOptions] that bun.ts calls. *)
Record UnpluginOptions := {
  transform : option (Source → ID → M TransformResult);
  buildStart : option (M unit);
}.

(** The field of the resolved options that bun.ts reads. *)
Record ResolvedOptions := {
  include : JsValue;
}.

(** [BunOptions = { forceImportTypiaMjs?: boolean } & Options] *)
Record BunOptions (Options : Type) := {
  forceImportTypiaMjs : option bool;
  options : Options;
}.
Arguments forceImportTypiaMjs {Options} _.
Arguments options {Options} _.

(** What an [onLoad] callback returns, and a callback registered with
    [build.onLoad({ filter }, callback)]; [callback] receives [args.path]. *)
Record OnLoadResult := {
  contents : string;
}.

Record OnLoad := {
  filter : RegExp;
  callback : string → M OnLoadResult;
}.

Module Bun.

Section bun.
Context `{Platform}.
(** core/options.ts and api.ts: the options type, the empty options object,
    [resolveOptions] and [unplugin.raw]. *)
Context {Options : Type} (emptyOptions : Options).
Context (resolveOptions : Options → ResolvedOptions).
Context (unplugin_raw : Options → UnpluginOptions).

(** The statement at the top of the module. *)
Definition moduleInit : M unit :=
  if negb isBun
  then throw (Error "You must use this plugin with bun")
  else ret tt.

(** [new RegExp(pattern)] *)
Definition RegExp_new (pattern : string) : M RegExp :=
  if RegExp_wellformed pattern
  then ret (RegExpOf pattern)
  else throw (SyntaxError pattern).

(** [i instanceof RegExp] *)
Definition instanceof_RegExp (i : JsValue) : bool :=
  match i with
  | JsRegExp _ => true
  | _ => false
  end.

Definition asRegExp (i : JsValue) : option RegExp :=
  match i with
  | JsRegExp r => Some r
  | _ => None
  end.

(** typia transform function with tagged types *)
Definition taggedTransform (id : ID) (source : Source)
    (unpluginRaw : UnpluginOptions) : M (option Source) :=
  match transform unpluginRaw with
  | None => throw (Error "transform is not defined")
  | Some transform =>
      let _transform (source : Source) (id : ID) :=
        modify (log (EvTransform source id));; transform source id in
      result ← _transform source id;
      match result with
      | TrNull | TrUndefined => ret None
      | TrString _ => ret None
      | TrObject code => ret (Some code)
      end
  end.

(** The conditional expression that initialises [filters] in [setup];
    [None] is its [undefined]. *)
Definition filters (include : JsValue) : M (option (list RegExp)) :=
  match include with
  | JsRegExp r => ret (Some [r])
  | JsString s => r ← RegExp_new s; ret (Some [r])
  | JsArray elements =>
      if forallb instanceof_RegExp elements && Nat.ltb 0 (length elements)
      then ret (Some (omap asRegExp elements))
      else ret None
  | _ => ret None
  end.

(** The callback registered for each filter. *)
Definition onLoadTransform (unpluginRaw : UnpluginOptions)
    (path : string) : M OnLoadResult :=
  let id := path in
  source ← Host.Bun_file_text id;
  code ← taggedTransform id source unpluginRaw;
  ret {| contents := default source code |}.

(** The filter and the callback of the typia rewrite:
    if input is ./node_modules/typia/lib/*, convert js to mjs. *)
Definition typiaLibJs : RegExp :=
  RegExpOf ".+\/node_modules\/typia\/lib\/.*\.js$".

Definition onLoadTypiaMjs (path : string) : M OnLoadResult :=
  let mjsPath := Str.replace_js_end path ".mjs" in
  text ← Host.Bun_file_text mjsPath;
  ret {| contents := text |}.

(** [setup(build)]: the result lists the [build.onLoad] registrations in
    the order they are made. *)
Definition setup (bunOptions : option (BunOptions Options)) : M (list OnLoad) :=
  let forceImportTypiaMjs := default true (bunOptions ≫= forceImportTypiaMjs) in
  let options := from_option options emptyOptions bunOptions in
  let resolvedOptions := resolveOptions options in
  let include := include resolvedOptions in
  let unpluginRaw := unplugin_raw options in
  filters ← filters include;
  match filters with
  | None =>
      throw (Error "include option should be a string, RegExp, or an array of RegExp with at least one element")
  | Some filters =>
      match buildStart unpluginRaw with
      | Some buildStart => buildStart
      | None => ret tt
      end;;
      ret (map (λ filter, {| filter := filter;
                             callback := onLoadTransform unpluginRaw |})
             filters
           ++ if forceImportTypiaMjs : bool
              then [{| filter := typiaLibJs; callback := onLoadTypiaMjs |}]
              else [])%list
  end.

End bun.

End Bun.

(** ** Sample platforms

    Concrete hosts on which the definitions above are run in the examples:
    slash-separated paths read the POSIX way, and a byte checksum standing in
    for both digests. The theorems below hold for every [Platform]. *)

Module Sample.

Fixpoint lastSegment (acc s : string) : string :=
  match s with
  | EmptyString => acc
  | String c s' =>
      if Ascii.eqb c "/"
      then lastSegment "" s'
      else lastSegment (acc +:+ String c "") s'
  end.

Definition posix_basename (p : string) : string := lastSegment "" p.

Definition posix_dirname (p : string) : string :=
  if Str.contains "/" p
  then
    let d := String.substring 0
               (String.length p - String.length (posix_basename p) - 1) p in
    if String.eqb d "" then "/" else d
  else ".".

Definition posix_join (a b : string) : string := a +:+ "/" +:+ b.

Fixpoint checksum (s : string) : N :=
  match s with
  | EmptyString => 0%N
  | String c s' => ((N_of_ascii c + 31 * checksum s') mod 65521)%N
  end.

Definition checksum_text (s : string) : string :=
  NilZero.string_of_uint (N.to_uint (checksum s)).

Definition balanced (s : string) : bool :=
  negb (String.eqb s "(").

Definition node : Platform := {|
  isBun := false;
  Bun_hash := checksum;
  md5_hex := checksum_text;
  basename := posix_basename;
  dirname := posix_dirname;
  join := posix_join;
  RegExp_wellformed := balanced;
|}.

Definition bun : Platform := {|
  isBun := true;
  Bun_hash := checksum;
  md5_hex := checksum_text;
  basename := posix_basename;
  dirname := posix_dirname;
  join := posix_join;
  RegExp_wellformed := balanced;
|}.

(** A cache configuration, and a process that starts with an empty
    temporary directory and typia 6.0.0 installed. *)
Definition cacheOn : ResolvedCacheOptions :=
  {| enable := true; base := "/tmp/unplugin_typia" |}.

Definition cacheOff : ResolvedCacheOptions :=
  {| enable := false; base := "/tmp/unplugin_typia" |}.

Definition start : World :=
  freshProcess {[ "/tmp" := Directory ]} ∅ (PkgJSON (Some "6.0.0")).

(** The entry of [/proj/src/a.ts] and its cache path on these platforms. *)
Definition id : string := "/proj/src/a.ts".
Definition source : string := "const x = 1".
Definition entryPath : string := "/tmp/unplugin_typia/src_a.ts_38450".

(** The process after it has cached [const x = 2] for that entry under Node,
    and a later process that starts on the files it left. *)
Definition stored : World :=
  (Cache.setCache (H:=node) id source (Some "const x = 2") cacheOn start).2.

Definition restarted : World :=
  freshProcess (fs stored) ∅ (PkgJSON (Some "6.0.0")).

(** A second cache configuration, on a base that does not exist. *)
Definition cacheElsewhere : ResolvedCacheOptions :=
  {| enable := true; base := "/var/other" |}.





(** The adapter examples: the options are the user's [include], if any; the
    transform rewrites the one source above and declines everything else. *)
Definition resolve (o : option JsValue) : ResolvedOptions :=
  {| include := default (JsArray [JsRegExp (RegExpOf "\.[cm]?[jt]sx?$")]) o |}.

Definition hook (source id : string) : M TransformResult :=
  ret (if String.eqb source "const x = 1"
       then TrObject "const x = 2"
       else TrNull).

Definition raw (o : option JsValue) : UnpluginOptions :=
  {| transform := Some hook; buildStart := None |}.

Definition project : World :=
  freshProcess
    {[ "/proj/src/a.ts" := File "const x = 1";
       "/proj/node_modules/typia/lib/index.js" := File "module.exports = {}";
       "/proj/node_modules/typia/lib/index.mjs" := File "export {}" ]}
    ∅ (PkgJSON (Some "6.0.0")).

(** [setup] on that project, for a user who passes [i] as [include], and
    the filters it registers. *)
Definition setup : option (BunOptions (option JsValue)) → M (list OnLoad) :=
  Bun.setup (H:=bun) None resolve raw.

Definition withInclude (i : JsValue) : option (BunOptions (option JsValue)) :=
  Some {| forceImportTypiaMjs := None; options := Some i |}.

Definition registrations (bunOptions : option (BunOptions (option JsValue)))
    : list OnLoad :=
  match (setup bunOptions project).1 with
  | Ok regs => regs
  | Throw _ => []
  end.

Definition includeError : Exn :=
  Error "include option should be a string, RegExp, or an array of RegExp with at least one element".

End Sample.

(** ** Notions used to state the properties *)

(** The compiler version [getHashComment] will use in [w]: the memoised
    module variable when it is set, the installed package otherwise. *)
Definition resolveVersion (w : World) : Result (option string) :=
  match typiaVersion w with
  | Some v => Ok (Some v)
  | None =>
      match typiaPkg w with
      | PkgJSON version => Ok version
      | PkgUnresolved => Throw (ResolveError "typia")
      end
  end.

(** The version text the validity marker will carry in [w], when the version
    can be resolved: an absent [version] field is rendered as the empty
    string. *)
Definition versionInForce (w : World) : option string :=
  match resolveVersion w with
  | Ok v => Some (default "" v)
  | Throw _ => None
  end.

(** Directory preparation succeeds in [w]. *)
Definition cacheReady `{Platform} (opts : ResolvedCacheOptions) (w : World) : Prop :=
  (Cache.prepareCacheDir opts w).1 = Ok tt.


(** A call of the cache facade, as the transform makes them, and a run of such
    calls in one process: a call that throws leaves the world as it was at
    the throw, and the next call starts from there. *)
Inductive CacheCall :=
  | CallGet (id source : string) (opts : ResolvedCacheOptions)
  | CallSet (id source : string) (data : option string)
      (opts : ResolvedCacheOptions).

Definition callOptions (c : CacheCall) : ResolvedCacheOptions :=
  match c with
  | CallGet _ _ opts => opts
  | CallSet _ _ _ opts => opts
  end.

Definition runCall `{Platform} (c : CacheCall) : M unit :=
  match c with
  | CallGet id source opts => Cache.getCache id source opts;; ret tt
  | CallSet id source data opts => Cache.setCache id source data opts
  end.

Definition runCalls `{Platform} (cs : list CacheCall) (w : World) : World :=
  fold_left (λ w c, (runCall c w).2) cs w.

(** The events of [prepareCacheDir]. *)
Definition isPreparation (e : Event) : bool :=
  match e with
  | EvMkdir _ | EvAccess _ => true
  | _ => false
  end.

(** A computation that, started with the directory guard set, leaves the
    guard alone and issues no preparation event. *)
Definition quiet {A} (m : M A) : Prop :=
  ∀ w r w', is_Some (cacheDir w) → m w = (r, w') →
    cacheDir w' = cacheDir w
    ∧ ∃ evs, trace w' = (trace w ++ evs)%list
             ∧ Forall (λ e, isPreparation e = false) evs.

(** ** cache.ts: the default cache directory *)

(** What [getCacheDir] reads and writes of the process: its environment
    variables and its working directory. *)
Record Process := {
  env : gmap string string;
  cwd : string;
}.

Module CacheDir.

Section cacheDir.
Context `{Platform}.
(** [os.tmpdir()], which reads the environment. *)
Context (tmpdir : gmap string string → string).

(** Get cache directory; the result is paired with the process as the call
    leaves it. *)
Definition getCacheDir (p : Process) : string * Process :=
  let _tmpDir := tmpdir (env p) in
  match env p !! "TMPDIR" with
  | Some _env =>
      if String.eqb _tmpDir (cwd p)
      then
        let p1 := {| env := delete "TMPDIR" (env p); cwd := cwd p |} in
        let _tmpDir := tmpdir (env p1) in
        let p2 := {| env := <["TMPDIR" := _env]> (env p1); cwd := cwd p1 |} in
        (join _tmpDir "unplugin_typia", p2)
      else (join _tmpDir "unplugin_typia", p)
  | None => (join _tmpDir "unplugin_typia", p)
  end.

End cacheDir.

End CacheDir.

(** ** next.ts *)

(** The webpack configuration handed to the [webpack] function of a Next.js
    configuration: [plugins] is [Some] when [config.plugins] is an array
    ([None] stands for an absent field or any other value, which the code
    leaves as it is), and [otherFields] is the rest of the object. *)
Record WebpackConfig (Plugin Rest : Type) := {
  plugins : option (list Plugin);
  otherFields : Rest;
}.
Arguments plugins {Plugin Rest} _.
Arguments otherFields {Plugin Rest} _.

(** A Next.js configuration: [webpackFunction] is [Some] when
    [typeof nextConfig.webpack === 'function'], and [settings] are its other
    fields. *)
Record NextConfig (Plugin Rest WebpackOptions Settings : Type) := {
  webpackFunction :
    option (WebpackConfig Plugin Rest → WebpackOptions → WebpackConfig Plugin Rest);
  settings : Settings;
}.
Arguments webpackFunction {Plugin Rest WebpackOptions Settings} _.
Arguments settings {Plugin Rest WebpackOptions Settings} _.

Module Next.

Section next.
Context {Options Plugin Rest WebpackOptions Settings : Type}.
(** The default export of webpack.ts, which builds the webpack plugin, and
    the settings of the empty object [{}]. *)
Context (webpack : Options → Plugin).
Context (noSettings : Settings).

(** [config.plugins.unshift(plugin)], guarded by [Array.isArray]. *)
Definition unshift_plugin (plugin : Plugin) (config : WebpackConfig Plugin Rest)
    : WebpackConfig Plugin Rest :=
  match plugins config with
  | Some array => {| plugins := Some (plugin :: array);
                     otherFields := otherFields config |}
  | None => config
  end.

(** Next.js plugin; [nextConfig] is [None] when the argument is omitted. *)
Definition next
    (nextConfig : option (NextConfig Plugin Rest WebpackOptions Settings))
    (options : Options) : NextConfig Plugin Rest WebpackOptions Settings :=
  let nextConfig :=
    default {| webpackFunction := None; settings := noSettings |} nextConfig in
  {| webpackFunction :=
       Some (λ config webpackOptions,
               let config := unshift_plugin (webpack options) config in
               match webpackFunction nextConfig with
               | Some userWebpack => userWebpack config webpackOptions
               | None => config
               end);
     settings := settings nextConfig |}.

(** [next] applied once for each of a list of options, innermost first. *)
Definition nextAll
    (nextConfig : NextConfig Plugin Rest WebpackOptions Settings)
    (optionsList : list Options)
    : NextConfig Plugin Rest WebpackOptions Settings :=
  fold_left (λ c o, next (Some c) o) optionsList nextConfig.

(** Calling the [webpack] function of a configuration, when it has one. *)
Definition callWebpack
    (nextConfig : NextConfig Plugin Rest WebpackOptions Settings)
    (config : WebpackConfig Plugin Rest) (webpackOptions : WebpackOptions)
    : WebpackConfig Plugin Rest :=
  match webpackFunction nextConfig with
  | Some f => f config webpackOptions
  | None => config
  end.

End next.

End Next.

(** More sample worlds, on the files of [Sample.stored]. *)
Module SampleWorlds.

(** The same process after typia 7.0.0 has been installed over 6.0.0. *)
Definition upgradedOnDisk : World :=
  mkWorld (fs Sample.stored) ∅ (PkgJSON (Some "7.0.0"))
    (cacheDir Sample.stored) (typiaVersion Sample.stored) (trace Sample.stored).


(** New processes that cannot find typia: on an empty temporary directory,
    and on the files [Sample.stored] left. *)
Definition noTypia : World :=
  freshProcess {[ "/tmp" := Directory ]} ∅ PkgUnresolved.

Definition noTypiaStored : World :=
  freshProcess (fs Sample.stored) ∅ PkgUnresolved.

(** A second source file and what is cached for it. *)
Definition otherId : string := "/proj/src/b.ts".
Definition otherSource : string := "const y = 1".

Definition storedBoth : World :=
  (Cache.setCache (H:=Sample.node) otherId otherSource (Some "const y = 2")
     Sample.cacheOn Sample.stored).2.

(** A Next.js configuration whose own [webpack] function appends a plugin,
    wrapped for two sets of options; plugins and options are names. *)
Definition userNextConfig : NextConfig string unit unit (list string) :=
  {| webpackFunction :=
       Some (λ config _,
               {| plugins := (λ ps, ps ++ ["user"])%list <$> plugins config;
                  otherFields := otherFields config |});
     settings := ["reactStrictMode"] |}.

Definition typiaPlugin (options : string) : string := "typia:" +:+ options.

End SampleWorlds.

(** ** Relations between the worlds before and after a computation *)

(** Every outcome of [m], normal or not, leaves a world related by [R]. *)
Definition keeps {A} (R : World → World → Prop) (m : M A) : Prop :=
  ∀ w r w', m w = (r, w') → R w w'.

(** No regular file was created, changed or removed. *)
Definition sameFiles (w w' : World) : Prop :=
  ∀ p content, fs w' !! p = Some (File content) ↔ fs w !! p = Some (File content).

(** No regular file other than the one at [path] was created, changed or
    removed. *)
Definition sameFilesExcept (path : string) (w w' : World) : Prop :=
  ∀ p content, p ≠ path →
    fs w' !! p = Some (File content) ↔ fs w !! p = Some (File content).

Definition isPackageRead (e : Event) : bool :=
  match e with
  | EvReadPackageJSON _ => true
  | _ => false
  end.

(** The memoised version, once it is [v], is still [v], and package.json was
    not read in between. *)
Definition pinned (v : string) (w w' : World) : Prop :=
  typiaVersion w = Some v →
  typiaVersion w' = Some v
  ∧ ∃ evs, trace w' = (trace w ++ evs)%list
           ∧ Forall (λ e, isPackageRead e = false) evs.

(** What [getCache] makes of the entry it finds at the cache path once the
    directory is prepared and the version resolved to [v]. *)
Definition entryAnswer `{Platform} (path key : string) (v : option string)
    (e : option Entry) : Result (option string) :=
  match e with
  | Some (File content) =>
      Ok (if Str.endsWith content (Cache.hashCommentOf v key)
          then Some content else None)
  | Some Directory =>
      if isBun then Ok None else Throw (IOError "EISDIR" path)
  | None => Ok None
  end.

(** Sample processes for [getCacheDir]: [os.tmpdir] as Node has it on POSIX
    systems. *)
Module SampleProcess.

Definition posix_tmpdir (e : gmap string string) : string :=
  let set (name : string) :=
    match e !! name with
    | Some "" | None => None
    | Some d => Some d
    end in
  let path :=
    match set "TMPDIR", set "TMP", set "TEMP" with
    | Some d, _, _ => d
    | None, Some d, _ => d
    | None, None, Some d => d
    | None, None, None => "/tmp"
    end in
  if Nat.ltb 1 (String.length path) && Str.endsWith path "/"
  then String.substring 0 (String.length path - 1) path
  else path.

(** pnpm has set [TMPDIR] to the project directory. *)
Definition underPnpm : Process :=
  {| env := {[ "TMPDIR" := "/proj"; "HOME" := "/home/dev" ]}; cwd := "/proj" |}.

End SampleProcess.

(** ** Facts about strings *)

Module StrFacts.

Import Str.

Local Arguments String.append : simpl nomatch.

Lemma app_nil_r (s : string) : s +:+ "" = s.
Proof. induction s as [|a s IH]; simpl; congruence. Qed.

Lemma app_assoc (a b c : string) : (a +:+ b) +:+ c = a +:+ (b +:+ c).
Proof. induction a as [|x a IH]; simpl; congruence. Qed.

Lemma length_app (a b : string) :
  String.length (a +:+ b) = String.length a + String.length b.
Proof. induction a as [|x a IH]; simpl; congruence. Qed.

Lemma substring_all (s : string) : String.substring 0 (String.length s) s = s.
Proof. induction s as [|a s IH]; simpl; congruence. Qed.

Lemma substring_app_r (a b : string) :
  String.substring (String.length a) (String.length b) (a +:+ b) = b.
Proof. induction a as [|x a IH]; simpl; [apply substring_all | done]. Qed.

Lemma substring_app_l (a b : string) :
  String.substring 0 (String.length a) (a +:+ b) = a.
Proof.
  induction a as [|x a IH]; simpl; [by destruct b | congruence].
Qed.

(** A slice of full length is a suffix: the receiver splits around it. *)
Lemma substring_split (n m : nat) (s : string) :
  String.length s = n + m →
  ∃ p, String.length p = n ∧ s = p +:+ String.substring n m s.
Proof.
  revert s; induction n as [|n IH]; intros s Hlen.
  - exists "". split; [done|]. simpl in Hlen. subst m.
    by rewrite substring_all.
  - destruct s as [|a s]; [done|]. simpl in Hlen.
    destruct (IH s) as (p & Hp & Hs); [lia|].
    exists (String a p). split; [simpl; by rewrite Hp|].
    simpl. by rewrite <- Hs.
Qed.

Lemma endsWith_app (p t : string) : endsWith (p +:+ t) t = true.
Proof.
  unfold endsWith. rewrite length_app.
  destruct (Nat.ltb_spec (String.length p + String.length t) (String.length t));
    [lia|].
  replace (String.length p + String.length t - String.length t)
    with (String.length p) by lia.
  rewrite substring_app_r. apply String.eqb_refl.
Qed.

Lemma endsWith_inv (s t : string) :
  endsWith s t = true → ∃ p, s = p +:+ t.
Proof.
  unfold endsWith.
  destruct (Nat.ltb_spec (String.length s) (String.length t)); [done|].
  intros Heq%String.eqb_eq.
  destruct (substring_split (String.length s - String.length t)
              (String.length t) s) as (p & _ & Hs); [lia|].
  exists p. by rewrite Heq in Hs.
Qed.

Lemma endsWith_spec (s t : string) :
  endsWith s t = true ↔ ∃ p, s = p +:+ t.
Proof.
  split; [apply endsWith_inv|]. intros [p ->]. apply endsWith_app.
Qed.



Lemma contains_app (c : ascii) (a b : string) :
  contains c (a +:+ b) = contains c a || contains c b.
Proof.
  induction a as [|x a IH]; simpl; [done|]. by destruct (Ascii.eqb x c).
Qed.

(** The last occurrence of a character determines how a string splits. *)
Lemma split_at_last (c : ascii) (l1 r1 l2 r2 : string) :
  contains c r1 = false → contains c r2 = false →
  l1 +:+ String c r1 = l2 +:+ String c r2 → l1 = l2 ∧ r1 = r2.
Proof.
  intros H1 H2. revert l2.
  induction l1 as [|x l1 IH]; intros [|y l2] H; simpl in *.
  - by injection H.
  - injection H as -> ->.
    rewrite contains_app in H1. simpl in H1.
    by rewrite Ascii.eqb_refl, orb_true_r in H1.
  - injection H as -> <-.
    rewrite contains_app in H2. simpl in H2.
    by rewrite Ascii.eqb_refl, orb_true_r in H2.
  - injection H as -> H. by destruct (IH _ H) as [-> ->].
Qed.

Lemma replace_js_end_js (stem replacement : string) :
  replace_js_end (stem +:+ ".js") replacement = stem +:+ replacement.
Proof.
  unfold replace_js_end. rewrite endsWith_app, length_app. simpl.
  replace (String.length stem + 3 - 3) with (String.length stem) by lia.
  by rewrite substring_app_l.
Qed.


End StrFacts.

(** ** Running computations *)

Ltac run :=
  unfold mbind, M_bind, mret, M_ret, bind, ret, throw, gets, modify, catch in *;
  cbn in *.

Lemma bind_run {A B} (m : M A) (k : A → M B) (w : World) :
  (m ≫= k) w = match m w with
               | (Ok a, w') => k a w'
               | (Throw e, w') => (Throw e, w')
               end.
Proof. reflexivity. Qed.

Lemma bind_Ok {A B} (m : M A) (k : A → M B) (w w' : World) (a : A) :
  m w = (Ok a, w') → (m ≫= k) w = k a w'.
Proof. intros Hm. by rewrite bind_run, Hm. Qed.

Lemma bind_Throw {A B} (m : M A) (k : A → M B) (w w' : World) (e : Exn) :
  m w = (Throw e, w') → (m ≫= k) w = (Throw e, w').
Proof. intros Hm. by rewrite bind_run, Hm. Qed.

Lemma bind_Ok_inv {A B} (m : M A) (k : A → M B) (w w2 : World) (b : B) :
  (m ≫= k) w = (Ok b, w2) →
  ∃ a w1, m w = (Ok a, w1) ∧ k a w1 = (Ok b, w2).
Proof.
  rewrite bind_run. destruct (m w) as [[a|e] w1]; [eauto | done].
Qed.

(** ** Facts about the host primitives *)

Module HostFacts.

Section facts.
Context `{Platform}.

Lemma existsSync_run (path : string) (w : World) :
  Host.existsSync path w
  = (Ok (bool_decide (is_Some (fs w !! path))), log (EvExistsSync path) w).
Proof. reflexivity. Qed.

Lemma readFile_file (path content : string) (w : World) :
  fs w !! path = Some (File content) →
  Host.readFile path w = (Ok content, log (EvReadFile path) w).
Proof. intros Hf. unfold Host.readFile. run. by rewrite Hf. Qed.

Lemma readFile_Ok_inv (path content : string) (w w' : World) :
  Host.readFile path w = (Ok content, w') →
  fs w !! path = Some (File content) ∧ w' = log (EvReadFile path) w.
Proof.
  unfold Host.readFile. run.
  destruct (fs w !! path) as [[c|]|]; intros [=]; by subst.
Qed.

Lemma Bun_file_exists_run (path : string) (w : World) :
  Host.Bun_file_exists path w
  = (Ok match fs w !! path with Some (File _) => true | _ => false end,
     log (EvBunExists path) w).
Proof. reflexivity. Qed.

Lemma Bun_file_text_file (path content : string) (w : World) :
  fs w !! path = Some (File content) →
  Host.Bun_file_text path w = (Ok content, log (EvBunText path) w).
Proof. intros Hf. unfold Host.Bun_file_text. run. by rewrite Hf. Qed.

Lemma Bun_file_text_Ok_inv (path content : string) (w w' : World) :
  Host.Bun_file_text path w = (Ok content, w') →
  fs w !! path = Some (File content) ∧ w' = log (EvBunText path) w.
Proof.
  unfold Host.Bun_file_text. run.
  destruct (fs w !! path) as [[c|]|]; intros [=]; by subst.
Qed.

Lemma writeFile_Ok_inv (path data : string) (w w' : World) :
  Host.writeFile path data w = (Ok tt, w') →
  w' = set_fs (insert path (File data)) (log (EvWriteFile path) w).
Proof.
  unfold Host.writeFile. run.
  destruct (fs w !! path) as [[c|]|], (fs w !! dirname path) as [[c'|]|];
    intros [=]; by subst.
Qed.

Lemma Bun_write_Ok_inv (path data : string) (w w' : World) :
  Host.Bun_write_createPath path data w = (Ok tt, w') →
  w' = set_fs (insert path (File data))
         (set_fs (insert (dirname path) Directory) (log (EvBunWrite path) w)).
Proof.
  unfold Host.Bun_write_createPath. run.
  destruct (fs w !! path) as [[c|]|], (fs w !! dirname path) as [[c'|]|];
    intros [=]; by subst.
Qed.

Lemma rm_file (path content : string) (w : World) :
  fs w !! path = Some (File content) →
  Host.rm path w = (Ok tt, set_fs (delete path) (log (EvRm path) w)).
Proof. intros Hf. unfold Host.rm. run. by rewrite Hf. Qed.

Lemma rm_missing (path : string) (w : World) :
  (∀ content, fs w !! path ≠ Some (File content)) →
  ∃ code, Host.rm path w = (Throw (IOError code path), log (EvRm path) w).
Proof.
  intros Hf. unfold Host.rm. run.
  destruct (fs w !! path) as [[c|]|]; [by destruct (Hf c) | eauto ..].
Qed.

End facts.

End HostFacts.

(** ** Facts about cache.ts *)

Module CacheFacts.

Import Cache.

Section facts.
Context `{Platform}.

Lemma prepareCacheDir_guarded (opts : ResolvedCacheOptions) (w : World) :
  is_Some (cacheDir w) → prepareCacheDir opts w = (Ok tt, w).
Proof. intros [d Hd]. unfold prepareCacheDir. run. by rewrite Hd. Qed.

(** What a successful preparation leaves behind: the guard is set (to the
    requested base if it was unset), the version state is untouched, and
    the only possible change of the file system is a new directory. *)
Lemma prepareCacheDir_Ok_inv (opts : ResolvedCacheOptions) (w w' : World) :
  prepareCacheDir opts w = (Ok tt, w') →
  is_Some (cacheDir w')
  ∧ (cacheDir w = None → cacheDir w' = Some (base opts))
  ∧ typiaVersion w' = typiaVersion w
  ∧ typiaPkg w' = typiaPkg w
  ∧ ∀ p, fs w' !! p = fs w !! p
         ∨ (fs w !! p = None ∧ fs w' !! p = Some Directory).
Proof.
  unfold prepareCacheDir, isWritable, Host.mkdir_recursive, Host.access_W_OK.
  run. destruct (cacheDir w) as [d|] eqn:Hd.
  - intros [= <-]. rewrite Hd. repeat split; eauto; done.
  - destruct (fs w !! base opts) as [[c|]|] eqn:Hb; cbn; [done | |].
    + rewrite Hb. destruct (bool_decide _); cbn; [done|].
      intros [= <-]. cbn. repeat split; eauto.
    + rewrite lookup_insert_eq. destruct (bool_decide _); cbn; [done|].
      intros [= <-]. cbn. repeat split; eauto.
      intros p. destruct (decide (base opts = p)) as [<-|Hne].
      * right. by rewrite lookup_insert_eq.
      * left. by rewrite lookup_insert_ne.
Qed.

Lemma resolveVersion_prepared (opts : ResolvedCacheOptions) (w w' : World) :
  prepareCacheDir opts w = (Ok tt, w') → resolveVersion w' = resolveVersion w.
Proof.
  intros (_ & _ & Hv & Hp & _)%prepareCacheDir_Ok_inv.
  unfold resolveVersion. by rewrite Hv, Hp.
Qed.

(** [getHashComment] succeeds exactly when the version can be resolved; it
    memoises the version and touches nothing else but the trace. *)
Lemma getHashComment_run (key : string) (w : World) (v : option string) :
  resolveVersion w = Ok v →
  ∃ w', getHashComment key w = (Ok (hashCommentOf v key), w')
        ∧ fs w' = fs w ∧ cacheDir w' = cacheDir w
        ∧ typiaVersion w' = v ∧ resolveVersion w' = Ok v.
Proof.
  unfold resolveVersion, getHashComment, Host.readPackageJSON_version. run.
  destruct (typiaVersion w) as [v0|] eqn:Hv; cbn.
  - intros [= <-]. eexists. split; [done|]. cbn. eauto.
  - destruct (typiaPkg w) as [|v0] eqn:Hp; cbn; [done|].
    intros [= <-]. eexists. split; [done|]. cbn. rewrite Hp.
    by destruct v0.
Qed.

Lemma getHashComment_Ok_inv (key hashComment : string) (w w' : World) :
  getHashComment key w = (Ok hashComment, w') →
  ∃ v, resolveVersion w = Ok v
       ∧ hashComment = hashCommentOf v key
       ∧ fs w' = fs w ∧ cacheDir w' = cacheDir w
       ∧ typiaVersion w' = v ∧ resolveVersion w' = Ok v.
Proof.
  intros Hrun.
  destruct (resolveVersion w) as [v|e] eqn:Hv.
  - destruct (getHashComment_run key w v Hv) as (w1 & Hrun' & Hrest).
    rewrite Hrun in Hrun'. injection Hrun' as -> ->. eauto.
  - exfalso. revert Hrun Hv.
    unfold resolveVersion, getHashComment, Host.readPackageJSON_version. run.
    destruct (typiaVersion w); [done|].
    by destruct (typiaPkg w).
Qed.

(** A successful [setCache] of a result leaves the entry, stamped with the
    version it resolved, at the cache path. *)
Lemma setCache_Ok_inv (id source data : string)
    (opts : ResolvedCacheOptions) (w w1 : World) :
  enable opts = true →
  setCache id source (Some data) opts w = (Ok tt, w1) →
  ∃ v, resolveVersion w1 = Ok v
       ∧ typiaVersion w1 = v
       ∧ is_Some (cacheDir w1)
       ∧ fs w1 !! getCachePath (getKey id source) opts
         = Some (File (data +:+ hashCommentOf v (getKey id source))).
Proof.
  intros Hen. unfold setCache. rewrite Hen. cbn.
  intros ([] & wp & Hprep & Hrest)%bind_Ok_inv.
  apply bind_Ok_inv in Hrest as (hc & wh & Hhc & Hwrite).
  apply prepareCacheDir_Ok_inv in Hprep as (Hcd & _).
  apply getHashComment_Ok_inv in Hhc
    as (v & _ & -> & _ & Hcd' & Hv & Hres).
  rewrite <- Hcd' in Hcd.
  exists v. destruct isBun.
  - apply HostFacts.Bun_write_Ok_inv in Hwrite as ->. cbn.
    by rewrite lookup_insert_eq.
  - apply HostFacts.writeFile_Ok_inv in Hwrite as ->. cbn.
    by rewrite lookup_insert_eq.
Qed.

(** What [getCache] answers when an entry is stored at the cache path. *)
Lemma getCache_stored (id source content : string)
    (opts : ResolvedCacheOptions) (w : World) (v : option string) :
  enable opts = true →
  cacheReady opts w →
  resolveVersion w = Ok v →
  fs w !! getCachePath (getKey id source) opts = Some (File content) →
  (getCache id source opts w).1
  = Ok (if Str.endsWith content (hashCommentOf v (getKey id source))
        then Some content else None).
Proof.
  intros Hen Hready Hv Hfile. unfold cacheReady in Hready.
  destruct (prepareCacheDir opts w) as [[[]|e] wp] eqn:Hprep; [|done].
  pose proof (resolveVersion_prepared _ _ _ Hprep) as Hvp.
  apply prepareCacheDir_Ok_inv in Hprep as Hinv.
  destruct Hinv as (_ & _ & _ & _ & Hfs).
  assert (fs wp !! getCachePath (getKey id source) opts
          = Some (File content)) as Hfile'.
  { destruct (Hfs (getCachePath (getKey id source) opts)) as [->|[? _]];
      congruence. }
  rewrite <- Hvp in Hv.
  unfold getCache, validate. rewrite Hen. cbn.
  rewrite (bind_Ok _ _ _ _ _ Hprep).
  destruct isBun.
  - rewrite (bind_Ok _ _ _ _ _ (HostFacts.Bun_file_exists_run _ _)).
    rewrite Hfile'. cbn.
    erewrite bind_Ok by (apply HostFacts.Bun_file_text_file; exact Hfile').
    destruct (getHashComment_run (getKey id source)
                (log (EvBunText (getCachePath (getKey id source) opts))
                   (log (EvBunExists (getCachePath (getKey id source) opts)) wp))
                v Hv) as (wh & Hhc & _).
    rewrite (bind_Ok _ _ _ _ _ Hhc).
    by destruct (Str.endsWith _ _).
  - rewrite (bind_Ok _ _ _ _ _ (HostFacts.existsSync_run _ _)).
    rewrite Hfile'. rewrite bool_decide_eq_true_2 by eauto. cbn.
    erewrite bind_Ok by (apply HostFacts.readFile_file; exact Hfile').
    destruct (getHashComment_run (getKey id source)
                (log (EvReadFile (getCachePath (getKey id source) opts))
                   (log (EvExistsSync (getCachePath (getKey id source) opts)) wp))
                v Hv) as (wh & Hhc & _).
    rewrite (bind_Ok _ _ _ _ _ Hhc).
    by destruct (Str.endsWith _ _).
Qed.

(** With the guard set and nothing at the cache path, [getCache] misses. *)
Lemma getCache_absent (id source : string)
    (opts : ResolvedCacheOptions) (w : World) :
  enable opts = true →
  is_Some (cacheDir w) →
  fs w !! getCachePath (getKey id source) opts = None →
  (getCache id source opts w).1 = Ok None.
Proof.
  intros Hen Hcd Hfile. unfold getCache. rewrite Hen. cbn.
  rewrite (bind_Ok _ _ _ _ _ (prepareCacheDir_guarded opts w Hcd)).
  destruct isBun.
  - rewrite (bind_Ok _ _ _ _ _ (HostFacts.Bun_file_exists_run _ _)).
    by rewrite Hfile.
  - rewrite (bind_Ok _ _ _ _ _ (HostFacts.existsSync_run _ _)).
    rewrite Hfile. rewrite bool_decide_eq_false_2; [done|].
    by intros [? ?].
Qed.

(** *** The directory guard *)

Lemma quiet_ret {A} (a : A) : quiet (ret a).
Proof.
  intros w r w' _ [= <- <-]. split; [done|]. exists []. by rewrite app_nil_r.
Qed.

Lemma quiet_throw {A} (e : Exn) : quiet (@throw A e).
Proof.
  intros w r w' _ [= <- <-]. split; [done|]. exists []. by rewrite app_nil_r.
Qed.

Lemma quiet_bind {A B} (m : M A) (k : A → M B) :
  quiet m → (∀ a, quiet (k a)) → quiet (m ≫= k).
Proof.
  intros Hm Hk w r w' Hcd. rewrite bind_run.
  destruct (m w) as [[a|e] w1] eqn:Hrun.
  - destruct (Hm _ _ _ Hcd Hrun) as (Hcd1 & evs1 & Ht1 & Hq1).
    intros Hrun2.
    destruct (Hk a w1 r w') as (Hcd2 & evs2 & Ht2 & Hq2);
      [by rewrite Hcd1 | done |].
    split; [congruence|]. exists (evs1 ++ evs2)%list.
    split; [by rewrite Ht2, Ht1, app_assoc | by apply Forall_app].
  - intros [= <- <-]. eauto.
Qed.

Lemma quiet_log (e : Event) : isPreparation e = false → quiet (modify (log e)).
Proof.
  intros He w r w' _ [= <- <-]. split; [done|]. exists [e]. split; [done|].
  by constructor.
Qed.

Lemma quiet_gets {A} (f : World → A) : quiet (gets f).
Proof.
  intros w r w' _ [= <- <-]. split; [done|]. exists []. by rewrite app_nil_r.
Qed.

Lemma quiet_set_fs (f : gmap string Entry → gmap string Entry) :
  quiet (modify (set_fs f)).
Proof.
  intros w r w' _ [= <- <-]. split; [done|]. exists []. by rewrite app_nil_r.
Qed.

Lemma quiet_set_typiaVersion (v : option string) :
  quiet (modify (set_typiaVersion v)).
Proof.
  intros w r w' _ [= <- <-]. split; [done|]. exists []. by rewrite app_nil_r.
Qed.

Lemma quiet_prepareCacheDir (opts : ResolvedCacheOptions) :
  quiet (prepareCacheDir opts).
Proof.
  intros w r w' Hcd. rewrite (prepareCacheDir_guarded opts w Hcd).
  by apply quiet_ret.
Qed.

Ltac quiet_step :=
  first
    [ apply quiet_ret | apply quiet_throw | apply quiet_gets
    | apply quiet_set_fs | apply quiet_set_typiaVersion
    | apply quiet_prepareCacheDir
    | by apply quiet_log
    | apply quiet_bind; [|intros ?]
    | match goal with
      | |- quiet (match ?x with _ => _ end) => destruct x
      end ].

Lemma quiet_getHashComment (key : string) : quiet (getHashComment key).
Proof.
  unfold getHashComment, Host.readPackageJSON_version. repeat quiet_step.
Qed.

Lemma quiet_getCache (id source : string) (opts : ResolvedCacheOptions) :
  quiet (getCache id source opts).
Proof.
  unfold getCache, validate, Host.Bun_file_exists, Host.Bun_file_text,
    Host.existsSync, Host.readFile.
  repeat first [apply quiet_getHashComment | quiet_step].
Qed.

Lemma quiet_setCache (id source : string) (data : option string)
    (opts : ResolvedCacheOptions) :
  quiet (setCache id source data opts).
Proof.
  unfold setCache, Host.rm, Host.Bun_write_createPath, Host.writeFile.
  repeat first [apply quiet_getHashComment | quiet_step].
Qed.

Lemma quiet_runCall (c : CacheCall) : quiet (runCall c).
Proof.
  destruct c; cbn; [|apply quiet_setCache].
  apply quiet_bind; [apply quiet_getCache | intros ?; apply quiet_ret].
Qed.

Lemma quiet_runCalls (cs : list CacheCall) (w : World) :
  is_Some (cacheDir w) →
  cacheDir (runCalls cs w) = cacheDir w
  ∧ ∃ evs, trace (runCalls cs w) = (trace w ++ evs)%list
           ∧ Forall (λ e, isPreparation e = false) evs.
Proof.
  revert w. induction cs as [|c cs IH]; intros w Hcd.
  - split; [done|]. exists []. by rewrite app_nil_r.
  - change (runCalls (c :: cs) w) with (runCalls cs (runCall c w).2).
    destruct (runCall c w) as [r w1] eqn:Hrun. cbn [snd].
    destruct (quiet_runCall c _ _ _ Hcd Hrun) as (Hcd1 & evs1 & Ht1 & Hq1).
    destruct (IH w1) as (Hcd2 & evs2 & Ht2 & Hq2); [by rewrite Hcd1|].
    split; [congruence|]. exists (evs1 ++ evs2)%list.
    split; [by rewrite Ht2, Ht1, app_assoc | by apply Forall_app].
Qed.

End facts.

End CacheFacts.

(** ** Properties of the transform cache *)

Section cache_properties.
Context `{Platform}.
Import Cache.

(** C8. Disabled caching short-circuits: with [enable = false], [getCache]
    returns null and [setCache] returns, and neither changes the world: no
    host operation is issued (the trace is the same), the module variables
    and the file system are as before. *)
Theorem cache_disabled_is_noop (id source : string) (data : option string)
    (opts : ResolvedCacheOptions) (w : World) :
  enable opts = false →
  getCache id source opts w = (Ok None, w)
  ∧ setCache id source data opts w = (Ok tt, w).
Proof.
  intros Hen. unfold getCache, setCache. by rewrite Hen.
Qed.


(** C5. The validity check fails closed: whatever is stored at the cache
    path, a [getCache] that returns gives either null or the stored content,
    and then that content ends with the marker computed for the key and the
    compiler version now in force. *)
Theorem getCache_fails_closed (id source : string)
    (opts : ResolvedCacheOptions) (w w' : World) (r : option string) :
  getCache id source opts w = (Ok r, w') →
  r = None
  ∨ ∃ content v,
      r = Some content
      ∧ fs w' !! getCachePath (getKey id source) opts = Some (File content)
      ∧ resolveVersion w' = Ok v
      ∧ Str.endsWith content (hashCommentOf v (getKey id source)) = true.
Proof.
  unfold getCache, validate. destruct (enable opts); cbn.
  2:{ intros [= <- <-]. by left. }
  intros ([] & wp & Hprep & Hrest)%bind_Ok_inv.
  destruct isBun.
  - apply bind_Ok_inv in Hrest as (present & we & Hex & Hrest).
    rewrite HostFacts.Bun_file_exists_run in Hex. injection Hex as <- <-.
    destruct (fs wp !! _) as [[c|]|] eqn:Hfile; cbn in Hrest;
      try (injection Hrest as <- <-; by left).
    apply bind_Ok_inv in Hrest as (content & wr & Hread & Hrest).
    apply HostFacts.Bun_file_text_Ok_inv in Hread as [Hc ->].
    apply bind_Ok_inv in Hrest as (hc & wh & Hhc & Hrest).
    apply CacheFacts.getHashComment_Ok_inv in Hhc
      as (v & _ & -> & Hfs & _ & _ & Hres).
    destruct (Str.endsWith _ _) eqn:Hends; injection Hrest as <- <-;
      [right | by left].
    exists content, v. rewrite Hfs. by cbn in *.
  - apply bind_Ok_inv in Hrest as (present & we & Hex & Hrest).
    rewrite HostFacts.existsSync_run in Hex. injection Hex as <- <-.
    destruct (bool_decide _); cbn in Hrest;
      [|injection Hrest as <- <-; by left].
    apply bind_Ok_inv in Hrest as (content & wr & Hread & Hrest).
    apply HostFacts.readFile_Ok_inv in Hread as [Hc ->].
    apply bind_Ok_inv in Hrest as (hc & wh & Hhc & Hrest).
    apply CacheFacts.getHashComment_Ok_inv in Hhc
      as (v & _ & -> & Hfs & _ & _ & Hres).
    destruct (Str.endsWith _ _) eqn:Hends; injection Hrest as <- <-;
      [right | by left].
    exists content, v. rewrite Hfs. by cbn in *.
Qed.


(** C1, as the code has it. After a successful [setCache] of [data], a
    [getCache] for the same identity and source, run with caching enabled in
    any world that still holds the entry, in which the cache directory is
    ready and the compiler version in force is the one [setCache] used,
    returns [data] followed by the validity marker (not [data] alone). *)
Theorem getCache_after_setCache (id source data : string)
    (opts : ResolvedCacheOptions) (w w1 w' : World) :
  enable opts = true →
  setCache id source (Some data) opts w = (Ok tt, w1) →
  fs w' !! getCachePath (getKey id source) opts
  = fs w1 !! getCachePath (getKey id source) opts →
  cacheReady opts w' →
  versionInForce w' = versionInForce w1 →
  (getCache id source opts w').1
  = Ok (Some (data +:+ hashCommentOf (typiaVersion w1) (getKey id source))).
Proof.
  intros Hen Hset Hfs Hready Hver.
  apply CacheFacts.setCache_Ok_inv in Hset as (v & Hres & Hv & _ & Hfile);
    [|done].
  rewrite Hv. rewrite <- Hfs in Hfile.
  unfold versionInForce in Hver. rewrite Hres in Hver.
  destruct (resolveVersion w') as [v'|e] eqn:Hres'; [|done].
  injection Hver as Hver.
  rewrite (CacheFacts.getCache_stored id source _ opts w' v' Hen Hready Hres' Hfile).
  assert (hashCommentOf v' (getKey id source)
          = hashCommentOf v (getKey id source)) as ->.
  { unfold hashCommentOf. by rewrite Hver. }
  by rewrite StrFacts.endsWith_app.
Qed.


(** C4. With caching enabled, the cache directory ready and the compiler
    version resolvable, [setCache] with null data deletes the entry stored at
    the cache path, after which [getCache] returns null; and when nothing is
    stored there, the deletion raises an I/O error for that path, which
    [setCache] lets through. *)
Theorem setCache_null_deletes (id source : string)
    (opts : ResolvedCacheOptions) (w : World) (v : option string) :
  enable opts = true →
  cacheReady opts w →
  resolveVersion w = Ok v →
  (∀ content,
     fs w !! getCachePath (getKey id source) opts = Some (File content) →
     ∃ w1, setCache id source None opts w = (Ok tt, w1)
           ∧ fs w1 !! getCachePath (getKey id source) opts = None
           ∧ (getCache id source opts w1).1 = Ok None)
  ∧ (fs w !! getCachePath (getKey id source) opts = None →
     ∃ code w1,
       setCache id source None opts w
       = (Throw (IOError code (getCachePath (getKey id source) opts)), w1)).
Proof.
  intros Hen Hready Hv. unfold cacheReady in Hready.
  destruct (prepareCacheDir opts w) as [[[]|e] wp] eqn:Hprep; [|done].
  pose proof (CacheFacts.resolveVersion_prepared _ _ _ Hprep) as Hvp.
  rewrite <- Hvp in Hv.
  apply CacheFacts.prepareCacheDir_Ok_inv in Hprep as Hinv.
  destruct Hinv as (Hcd & _ & _ & _ & Hfs).
  destruct (CacheFacts.getHashComment_run (getKey id source) wp v Hv)
    as (wh & Hhc & Hfsh & Hcdh & _).
  unfold setCache. rewrite Hen. cbn.
  rewrite (bind_Ok _ _ _ _ _ Hprep), (bind_Ok _ _ _ _ _ Hhc).
  specialize (Hfs (getCachePath (getKey id source) opts)).
  rewrite <- Hfsh in Hfs. rewrite <- Hcdh in Hcd.
  split.
  - intros content Hfile.
    assert (fs wh !! getCachePath (getKey id source) opts
            = Some (File content)) as Hfile'.
    { destruct Hfs as [->|[? _]]; congruence. }
    eexists. split; [by apply (HostFacts.rm_file _ content)|].
    assert (fs (set_fs (delete (getCachePath (getKey id source) opts))
                  (log (EvRm (getCachePath (getKey id source) opts)) wh))
              !! getCachePath (getKey id source) opts = None) as Hgone.
    { cbn. apply lookup_delete_eq. }
    split; [done|].
    by apply CacheFacts.getCache_absent.
  - intros Hfile.
    destruct (HostFacts.rm_missing
                (getCachePath (getKey id source) opts) wh) as [code Hrm].
    { intros content Hc. destruct Hfs as [Heq|[_ Heq]]; congruence. }
    eauto.
Qed.

(** A successful first call with caching enabled sets the guard to its base. *)
Lemma first_call_sets_guard (c : CacheCall) (w w1 : World) :
  cacheDir w = None →
  enable (callOptions c) = true →
  runCall c w = (Ok tt, w1) →
  cacheDir w1 = Some (base (callOptions c)).
Proof.
  intros Hnone Hen Hrun.
  assert (∃ wp, prepareCacheDir (callOptions c) w = (Ok tt, wp)
                ∧ ∃ r, runCall c wp = (r, w1)) as (wp & Hprep & r & Hrest).
  { destruct c as [id source opts|id source data opts]; cbn in *.
    - apply bind_Ok_inv in Hrun as (o & wg & Hget & [= ->]).
      unfold getCache in Hget. rewrite Hen in Hget. cbn in Hget.
      apply bind_Ok_inv in Hget as ([] & wp & Hprep & Hrest).
      exists wp. split; [done|]. exists (Ok tt).
      apply CacheFacts.prepareCacheDir_Ok_inv in Hprep as Hinv.
      destruct Hinv as (Hcd & _).
      rewrite bind_run. unfold getCache. rewrite Hen. cbn.
      rewrite (bind_Ok _ _ _ _ _ (CacheFacts.prepareCacheDir_guarded opts wp Hcd)).
      by rewrite Hrest.
    - unfold setCache in Hrun. rewrite Hen in Hrun. cbn in Hrun.
      apply bind_Ok_inv in Hrun as ([] & wp & Hprep & Hrest).
      exists wp. split; [done|]. exists (Ok tt).
      apply CacheFacts.prepareCacheDir_Ok_inv in Hprep as Hinv.
      destruct Hinv as (Hcd & _).
      unfold setCache. rewrite Hen. cbn.
      by rewrite (bind_Ok _ _ _ _ _ (CacheFacts.prepareCacheDir_guarded opts wp Hcd)). }
  apply CacheFacts.prepareCacheDir_Ok_inv in Hprep as (Hcd & Hbase & _).
  destruct (CacheFacts.quiet_runCall c _ _ _ Hcd Hrest) as [-> _]. auto.
Qed.

(** C10. The guard records that a base was prepared, not which one. Once a
    first call with caching enabled has succeeded for its base, the guard
    holds that base through every later call of the process, whatever base
    the later calls name: their directory preparation returns at once, and
    they create no directory and check no writability before they read,
    write or delete under their own base. *)
Theorem cacheDir_guard_ignores_later_bases (first : CacheCall)
    (later : list CacheCall) (w w1 : World) :
  cacheDir w = None →
  enable (callOptions first) = true →
  runCall first w = (Ok tt, w1) →
  cacheDir w1 = Some (base (callOptions first))
  ∧ cacheDir (runCalls later w1) = Some (base (callOptions first))
  ∧ (∀ opts, prepareCacheDir opts (runCalls later w1)
             = (Ok tt, runCalls later w1))
  ∧ ∃ evs, trace (runCalls later w1) = (trace w1 ++ evs)%list
           ∧ Forall (λ e, isPreparation e = false) evs.
Proof.
  intros Hnone Hen Hrun.
  pose proof (first_call_sets_guard first w w1 Hnone Hen Hrun) as Hcd.
  destruct (CacheFacts.quiet_runCalls later w1) as (Hcd' & Hevs);
    [by rewrite Hcd|].
  rewrite Hcd in Hcd'. repeat split; [done | done | | done].
  intros opts. apply CacheFacts.prepareCacheDir_guarded. by rewrite Hcd'.
Qed.

End cache_properties.

(** ** Properties of the Bun adapter *)

Section bun_properties.
Context `{Platform}.
Context {Options : Type} (emptyOptions : Options).
Context (resolveOptions : Options → ResolvedOptions).
Context (unplugin_raw : Options → UnpluginOptions).
Import Bun.

Local Abbreviation setup := (Bun.setup emptyOptions resolveOptions unplugin_raw).






(** C3. Classification of the transform result. For a file the callback is
    called for, with its source read and the transform resolved to [result]:
    null, undefined and a plain string all classify as no replacement, an
    object classifies as its [code]; the callback serves the replacement
    when there is one and the source as read otherwise. *)
Theorem onLoad_serves_code_or_source (unpluginRaw : UnpluginOptions)
    (hook : string → string → M TransformResult)
    (path source : string) (result : TransformResult) (w w' : World) :
  transform unpluginRaw = Some hook →
  fs w !! path = Some (File source) →
  hook source path (log (EvTransform source path) (log (EvBunText path) w))
  = (Ok result, w') →
  taggedTransform path source unpluginRaw (log (EvBunText path) w)
  = (Ok match result with
        | TrObject code => Some code
        | TrNull | TrUndefined | TrString _ => None
        end, w')
  ∧ onLoadTransform unpluginRaw path w
    = (Ok {| contents := match result with
                         | TrObject code => code
                         | TrNull | TrUndefined | TrString _ => source
                         end |}, w').
Proof.
  intros Hhook Hfile Hrun.
  assert (taggedTransform path source unpluginRaw (log (EvBunText path) w)
          = (Ok match result with
                | TrObject code => Some code
                | TrNull | TrUndefined | TrString _ => None
                end, w')) as Htagged.
  { unfold taggedTransform. rewrite Hhook. run. rewrite Hrun.
    by destruct result. }
  split; [done|]. unfold onLoadTransform.
  rewrite (bind_Ok _ _ _ _ _ (HostFacts.Bun_file_text_file path source w Hfile)).
  rewrite (bind_Ok _ _ _ _ _ Htagged). by destruct result.
Qed.


End bun_properties.

(** ** The properties on the sample platforms *)

Example getKey_sample :
  Cache.getKey (H:=Sample.node) "/proj/src/a.ts" "const x = 1"
  = "src_a.ts_38450".
Proof. reflexivity. Qed.

(** Underscores in the names make two basename pairs read the same. *)
Example getKey_underscore_collision :
  Cache.getKey (H:=Sample.node) "/x/a_b/c" "s"
  = Cache.getKey (H:=Sample.node) "/x/a/b_c" "s".
Proof. reflexivity. Qed.

Lemma disabled_sample_untouched :
  Cache.getCache (H:=Sample.node) Sample.id Sample.source Sample.cacheOff
    Sample.stored
  = (Ok None, Sample.stored)
  ∧ Cache.setCache (H:=Sample.node) Sample.id Sample.source (Some "const x = 3")
      Sample.cacheOff Sample.stored
    = (Ok tt, Sample.stored).
Proof.
  apply (cache_disabled_is_noop (H:=Sample.node)). reflexivity.
Defined.


Lemma validity_sample_hit :
  Some "const x = 2/* unplugin-typia-6.0.0-src_a.ts_38450 */" = None
  ∨ ∃ content v,
      Some "const x = 2/* unplugin-typia-6.0.0-src_a.ts_38450 */" = Some content
      ∧ fs (Cache.getCache (H:=Sample.node) Sample.id Sample.source
              Sample.cacheOn Sample.stored).2
          !! Cache.getCachePath (H:=Sample.node)
               (Cache.getKey (H:=Sample.node) Sample.id Sample.source)
               Sample.cacheOn
        = Some (File content)
      ∧ resolveVersion
          (Cache.getCache (H:=Sample.node) Sample.id Sample.source
             Sample.cacheOn Sample.stored).2
        = Ok v
      ∧ Str.endsWith content
          (Cache.hashCommentOf v
             (Cache.getKey (H:=Sample.node) Sample.id Sample.source))
        = true.
Proof.
  apply (getCache_fails_closed (H:=Sample.node) Sample.id Sample.source
           Sample.cacheOn Sample.stored).
  vm_compute. reflexivity.
Defined.

(** A truncated entry is a miss. *)
Example getCache_truncated_entry :
  (Cache.getCache (H:=Sample.node) Sample.id Sample.source Sample.cacheOn
     (set_fs (insert Sample.entryPath
                (File "const x = 2/* unplugin-typia-6.0.0-src_a"))
        Sample.stored)).1
  = Ok None.
Proof. vm_compute. reflexivity. Qed.

(** C1, the claim as written: [getCache] after [setCache] does not return
    the data that was set, it returns the data with the marker appended. *)
Lemma roundtrip_is_not_identity :
  Cache.setCache (H:=Sample.node) Sample.id Sample.source (Some "const x = 2")
    Sample.cacheOn Sample.start
  = (Ok tt, Sample.stored)
  ∧ (Cache.getCache (H:=Sample.node) Sample.id Sample.source Sample.cacheOn
       Sample.stored).1
    = Ok (Some "const x = 2/* unplugin-typia-6.0.0-src_a.ts_38450 */")
  ∧ (Cache.getCache (H:=Sample.node) Sample.id Sample.source Sample.cacheOn
       Sample.stored).1
    ≠ Ok (Some "const x = 2").
Proof.
  split; [|split].
  - vm_compute. reflexivity.
  - vm_compute. reflexivity.
  - vm_compute. discriminate.
Qed.

Lemma roundtrip_sample_restart :
  (Cache.getCache (H:=Sample.node) Sample.id Sample.source Sample.cacheOn
     Sample.restarted).1
  = Ok (Some ("const x = 2"
              +:+ Cache.hashCommentOf (typiaVersion Sample.stored)
                    (Cache.getKey (H:=Sample.node) Sample.id Sample.source))).
Proof.
  apply (getCache_after_setCache (H:=Sample.node) Sample.id Sample.source
           "const x = 2" Sample.cacheOn Sample.start Sample.stored
           Sample.restarted).
  - reflexivity.
  - vm_compute. reflexivity.
  - vm_compute. reflexivity.
  - vm_compute. reflexivity.
  - vm_compute. reflexivity.
Defined.



Lemma delete_sample_entry :
  ∃ w1,
    Cache.setCache (H:=Sample.node) Sample.id Sample.source None Sample.cacheOn
      Sample.stored
    = (Ok tt, w1)
    ∧ fs w1 !! Cache.getCachePath (H:=Sample.node)
                 (Cache.getKey (H:=Sample.node) Sample.id Sample.source)
                 Sample.cacheOn
      = None
    ∧ (Cache.getCache (H:=Sample.node) Sample.id Sample.source Sample.cacheOn
         w1).1
      = Ok None.
Proof.
  apply (setCache_null_deletes (H:=Sample.node) Sample.id Sample.source
           Sample.cacheOn Sample.stored (Some "6.0.0"))
    with (content := "const x = 2/* unplugin-typia-6.0.0-src_a.ts_38450 */").
  - reflexivity.
  - vm_compute. reflexivity.
  - vm_compute. reflexivity.
  - vm_compute. reflexivity.
Defined.

(** Deleting an entry that was never stored: the [ENOENT] of [rm]. *)
Example setCache_null_missing_entry :
  (Cache.setCache (H:=Sample.node) Sample.id Sample.source None Sample.cacheOn
     Sample.start).1
  = Throw (IOError "ENOENT" Sample.entryPath).
Proof. vm_compute. reflexivity. Qed.

Lemma guard_sample_other_base :
  cacheDir Sample.stored = Some "/tmp/unplugin_typia"
  ∧ cacheDir
      (runCalls (H:=Sample.node)
         [CallSet Sample.id Sample.source (Some "const x = 2")
            Sample.cacheElsewhere]
         Sample.stored)
    = Some "/tmp/unplugin_typia"
  ∧ (∀ opts,
       Cache.prepareCacheDir opts
         (runCalls (H:=Sample.node)
            [CallSet Sample.id Sample.source (Some "const x = 2")
               Sample.cacheElsewhere]
            Sample.stored)
       = (Ok tt,
          runCalls (H:=Sample.node)
            [CallSet Sample.id Sample.source (Some "const x = 2")
               Sample.cacheElsewhere]
            Sample.stored))
  ∧ ∃ evs,
      trace
        (runCalls (H:=Sample.node)
           [CallSet Sample.id Sample.source (Some "const x = 2")
              Sample.cacheElsewhere]
           Sample.stored)
      = (trace Sample.stored ++ evs)%list
      ∧ Forall (λ e, isPreparation e = false) evs.
Proof.
  apply (cacheDir_guard_ignores_later_bases (H:=Sample.node)
           (CallSet Sample.id Sample.source (Some "const x = 2") Sample.cacheOn)
           [CallSet Sample.id Sample.source (Some "const x = 2")
              Sample.cacheElsewhere]
           Sample.start Sample.stored).
  - reflexivity.
  - reflexivity.
  - vm_compute. reflexivity.
Defined.

(** The later call under Node: the other base was never created, so the
    write fails, and the base still does not exist afterwards. *)
Example later_base_is_never_created :
  Cache.setCache (H:=Sample.node) Sample.id Sample.source (Some "const x = 2")
    Sample.cacheElsewhere Sample.stored
  = (Throw (IOError "ENOENT" "/var/other/src_a.ts_38450"),
     log (EvWriteFile "/var/other/src_a.ts_38450") Sample.stored)
  ∧ fs Sample.stored !! "/var/other" = None.
Proof. split; vm_compute; reflexivity. Qed.

(** The five inputs of the specification's filter test. *)
Example setup_include_undefined :
  Sample.setup (Sample.withInclude JsUndefined) Sample.project
  = (Throw Sample.includeError, Sample.project).
Proof. reflexivity. Qed.

Example setup_include_empty_list :
  Sample.setup (Sample.withInclude (JsArray [])) Sample.project
  = (Throw Sample.includeError, Sample.project).
Proof. reflexivity. Qed.

Example setup_include_mixed_list :
  Sample.setup
    (Sample.withInclude (JsArray [JsRegExp (RegExpOf "re"); JsString "bad"]))
    Sample.project
  = (Throw Sample.includeError, Sample.project).
Proof. reflexivity. Qed.

Example setup_include_string :
  filter <$> Sample.registrations (Sample.withInclude (JsString "a string"))
  = [RegExpOf "a string"; Bun.typiaLibJs].
Proof. reflexivity. Qed.

Example setup_include_pattern :
  filter <$> Sample.registrations (Sample.withInclude (JsRegExp (RegExpOf "re")))
  = [RegExpOf "re"; Bun.typiaLibJs].
Proof. reflexivity. Qed.

(** A string that is not a regular expression: the error is the one of
    [new RegExp]. *)
Example setup_include_malformed_string :
  Sample.setup (Sample.withInclude (JsString "(")) Sample.project
  = (Throw (SyntaxError "("), Sample.project).
Proof. reflexivity. Qed.


Lemma dispatch_sample_replaces :
  Bun.taggedTransform "/proj/src/a.ts" "const x = 1" (Sample.raw None)
    (log (EvBunText "/proj/src/a.ts") Sample.project)
  = (Ok (Some "const x = 2"),
     log (EvTransform "const x = 1" "/proj/src/a.ts")
       (log (EvBunText "/proj/src/a.ts") Sample.project))
  ∧ Bun.onLoadTransform (Sample.raw None) "/proj/src/a.ts" Sample.project
    = (Ok {| contents := "const x = 2" |},
       log (EvTransform "const x = 1" "/proj/src/a.ts")
         (log (EvBunText "/proj/src/a.ts") Sample.project)).
Proof.
  apply (onLoad_serves_code_or_source (Sample.raw None) Sample.hook
           "/proj/src/a.ts" "const x = 1" (TrObject "const x = 2")
           Sample.project).
  - reflexivity.
  - vm_compute. reflexivity.
  - reflexivity.
Defined.

(** The end-to-end examples of the specification: a transform that returns
    null, or a plain string, leaves the source as it is. *)
Example onLoad_null_serves_source :
  (Bun.onLoadTransform
     {| transform := Some (λ _ _, ret TrNull); buildStart := None |}
     "/proj/src/a.ts" Sample.project).1
  = Ok {| contents := "const x = 1" |}.
Proof. vm_compute. reflexivity. Qed.

Example onLoad_string_serves_source :
  (Bun.onLoadTransform
     {| transform := Some (λ _ _, ret (TrString "const x = 2"));
        buildStart := None |}
     "/proj/src/a.ts" Sample.project).1
  = Ok {| contents := "const x = 1" |}.
Proof. vm_compute. reflexivity. Qed.


(** With the option off, only the transform callbacks are registered. *)
Example setup_without_typia_rewrite :
  filter <$> Sample.registrations
               (Some {| forceImportTypiaMjs := Some false; options := None |})
  = [RegExpOf "\.[cm]?[jt]sx?$"].
Proof. reflexivity. Qed.

(** ** More about cache.ts *)

(** *** Relations kept by computations *)

Section keeps_facts.
Context (R : World → World → Prop) `{!Reflexive R, !Transitive R}.

Lemma keeps_ret {A} (a : A) : keeps R (ret a).
Proof. intros w r w' [= <- <-]. reflexivity. Qed.

Lemma keeps_throw {A} (e : Exn) : keeps R (@throw A e).
Proof. intros w r w' [= <- <-]. reflexivity. Qed.

Lemma keeps_gets {A} (f : World → A) : keeps R (gets f).
Proof. intros w r w' [= <- <-]. reflexivity. Qed.

Lemma keeps_bind {A B} (m : M A) (k : A → M B) :
  keeps R m → (∀ a, keeps R (k a)) → keeps R (m ≫= k).
Proof.
  intros Hm Hk w r w'. rewrite bind_run.
  destruct (m w) as [[a|e] w1] eqn:Hrun.
  - intros Hrun2. transitivity w1; [by eapply Hm | by eapply Hk].
  - intros [= <- <-]. by eapply Hm.
Qed.

Lemma keeps_catch {A} (m h : M A) : keeps R m → keeps R h → keeps R (catch m h).
Proof.
  intros Hm Hh w r w'. unfold catch.
  destruct (m w) as [[a|e] w1] eqn:Hrun.
  - intros [= <- <-]. by eapply Hm.
  - intros Hrun2. transitivity w1; [by eapply Hm | by eapply Hh].
Qed.

End keeps_facts.

Global Instance sameFiles_refl : Reflexive sameFiles.
Proof. by intros w p content. Qed.

Global Instance sameFiles_trans : Transitive sameFiles.
Proof.
  intros w1 w2 w3 H12 H23 p content. etrans; [apply H23 | apply H12].
Qed.

Global Instance sameFilesExcept_refl (path : string) :
  Reflexive (sameFilesExcept path).
Proof. by intros w p content. Qed.

Global Instance sameFilesExcept_trans (path : string) :
  Transitive (sameFilesExcept path).
Proof.
  intros w1 w2 w3 H12 H23 p content Hne.
  etrans; [by apply H23 | by apply H12].
Qed.

Global Instance pinned_refl (v : string) : Reflexive (pinned v).
Proof.
  intros w Hv. split; [done|]. exists []. by rewrite app_nil_r.
Qed.

Global Instance pinned_trans (v : string) : Transitive (pinned v).
Proof.
  intros w1 w2 w3 H12 H23 Hv.
  destruct (H12 Hv) as (Hv2 & evs1 & Ht1 & Hq1).
  destruct (H23 Hv2) as (Hv3 & evs2 & Ht2 & Hq2).
  split; [done|]. exists (evs1 ++ evs2)%list.
  split; [by rewrite Ht2, Ht1, app_assoc | by apply Forall_app].
Qed.

Lemma sameFiles_except (path : string) (w w' : World) :
  sameFiles w w' → sameFilesExcept path w w'.
Proof. intros Hs p content _. apply Hs. Qed.

Section more_cache_facts.
Context `{Platform}.
Import Cache.

Ltac prim_files :=
  intros w r w'; run; repeat case_match; intros [= <- <-];
  intros q body; cbn; try done.

Lemma files_log (e : Event) : keeps sameFiles (modify (log e)).
Proof. by intros w r w' [= <- <-]. Qed.

Lemma files_set_cacheDir (d : option string) :
  keeps sameFiles (modify (set_cacheDir d)).
Proof. by intros w r w' [= <- <-]. Qed.

Lemma files_set_typiaVersion (v : option string) :
  keeps sameFiles (modify (set_typiaVersion v)).
Proof. by intros w r w' [= <- <-]. Qed.

Lemma files_mkdir (path : string) : keeps sameFiles (Host.mkdir_recursive path).
Proof.
  unfold Host.mkdir_recursive. prim_files.
  destruct (decide (path = q)) as [<-|Hne].
  - rewrite lookup_insert_eq. split; [done | congruence].
  - by rewrite lookup_insert_ne.
Qed.

Lemma files_access (path : string) : keeps sameFiles (Host.access_W_OK path).
Proof. unfold Host.access_W_OK. prim_files. Qed.

Lemma files_existsSync (path : string) : keeps sameFiles (Host.existsSync path).
Proof. unfold Host.existsSync. prim_files. Qed.

Lemma files_readFile (path : string) : keeps sameFiles (Host.readFile path).
Proof. unfold Host.readFile. prim_files. Qed.

Lemma files_Bun_file_exists (path : string) :
  keeps sameFiles (Host.Bun_file_exists path).
Proof. unfold Host.Bun_file_exists. prim_files. Qed.

Lemma files_Bun_file_text (path : string) :
  keeps sameFiles (Host.Bun_file_text path).
Proof. unfold Host.Bun_file_text. prim_files. Qed.

Lemma files_readPackageJSON (name : string) :
  keeps sameFiles (Host.readPackageJSON_version name).
Proof. unfold Host.readPackageJSON_version. prim_files. Qed.

Lemma files_writeFile (path data : string) :
  keeps (sameFilesExcept path) (Host.writeFile path data).
Proof.
  unfold Host.writeFile. prim_files; intros Hne; by rewrite ?lookup_insert_ne.
Qed.

Lemma files_Bun_write (path data : string) :
  keeps (sameFilesExcept path) (Host.Bun_write_createPath path data).
Proof.
  unfold Host.Bun_write_createPath. prim_files; intros Hne;
    rewrite ?lookup_insert_ne by done;
    (destruct (decide (dirname path = q)) as [<-|Hd];
     [rewrite lookup_insert_eq; split; [done | congruence]
     |by rewrite lookup_insert_ne]).
Qed.

Lemma files_rm (path : string) : keeps (sameFilesExcept path) (Host.rm path).
Proof.
  unfold Host.rm. prim_files; intros Hne; by rewrite ?lookup_delete_ne.
Qed.

Lemma keeps_weaken {A} (R R' : World → World → Prop) (m : M A) :
  (∀ w w', R w w' → R' w w') → keeps R m → keeps R' m.
Proof. intros Himp Hm w r w' Hrun. apply Himp. by eapply Hm. Qed.

Ltac keeps_step :=
  first
    [ by apply keeps_ret; apply _
    | by apply keeps_throw; apply _
    | by apply keeps_gets; apply _
    | apply files_log | apply files_set_cacheDir
    | apply files_set_typiaVersion | apply files_mkdir | apply files_access
    | apply files_existsSync | apply files_readFile
    | apply files_Bun_file_exists | apply files_Bun_file_text
    | apply files_readPackageJSON
    | apply keeps_bind; [apply _ | | intros ?]
    | apply keeps_catch; [apply _ | |]
    | match goal with
      | |- keeps _ (match ?x with _ => _ end) => destruct x
      end ].

Lemma files_prepareCacheDir (opts : ResolvedCacheOptions) :
  keeps sameFiles (prepareCacheDir opts).
Proof. unfold prepareCacheDir, isWritable. repeat keeps_step. Qed.

Lemma files_getHashComment (key : string) :
  keeps sameFiles (getHashComment key).
Proof. unfold getHashComment. repeat keeps_step. Qed.


Lemma files_setCache (id source : string) (data : option string)
    (opts : ResolvedCacheOptions) :
  keeps (sameFilesExcept (getCachePath (getKey id source) opts))
    (setCache id source data opts).
Proof.
  unfold setCache.
  repeat first
    [ apply files_writeFile | apply files_Bun_write | apply files_rm
    | apply (keeps_weaken sameFiles);
        [apply sameFiles_except | apply files_prepareCacheDir]
    | apply (keeps_weaken sameFiles);
        [apply sameFiles_except | apply files_getHashComment]
    | keeps_step ].
Qed.


(** X2. [setCache] never creates, changes or removes a regular file other
    than the entry of its own key, whether it returns or throws. *)
Theorem setCache_changes_only_its_entry (id source : string)
    (data : option string) (opts : ResolvedCacheOptions) (w w' : World)
    (r : Result unit) (p content : string) :
  setCache id source data opts w = (r, w') →
  p ≠ getCachePath (getKey id source) opts →
  fs w' !! p = Some (File content) ↔ fs w !! p = Some (File content).
Proof.
  intros Hrun Hne. by apply (files_setCache id source data opts w r w').
Qed.

End more_cache_facts.

Section version_facts.
Context `{Platform}.
Import Cache.

Ltac prim_pinned :=
  intros w r w'; run; repeat case_match; intros [= <- <-] Hv;
  (split; [done|]); cbn;
  first [ by exists []; rewrite app_nil_r
        | by eexists [_]; split; [done | repeat constructor] ].

Lemma pinned_log (v : string) (e : Event) :
  isPackageRead e = false → keeps (pinned v) (modify (log e)).
Proof.
  intros He w r w' [= <- <-] Hv. split; [done|]. exists [e].
  split; [done | by constructor].
Qed.

Lemma pinned_set_fs (v : string) (f : gmap string Entry → gmap string Entry) :
  keeps (pinned v) (modify (set_fs f)).
Proof. prim_pinned. Qed.

Lemma pinned_set_cacheDir (v : string) (d : option string) :
  keeps (pinned v) (modify (set_cacheDir d)).
Proof. prim_pinned. Qed.

(** With the version memoised, [getHashComment] answers from the memo. *)
Lemma pinned_getHashComment (v key : string) :
  keeps (pinned v) (getHashComment key).
Proof.
  intros w r w'. unfold getHashComment. run.
  destruct (typiaVersion w) as [v0|] eqn:Hv0; cbn.
  - intros [= <- <-] Hv. cbn. split; [congruence|]. exists [].
    by rewrite app_nil_r.
  - intros _ Hv. congruence.
Qed.

Ltac pinned_step :=
  first
    [ by apply keeps_ret; apply _
    | by apply keeps_throw; apply _
    | by apply keeps_gets; apply _
    | apply pinned_set_fs | apply pinned_set_cacheDir
    | apply pinned_getHashComment
    | by apply pinned_log
    | apply keeps_bind; [apply _ | | intros ?]
    | apply keeps_catch; [apply _ | |]
    | match goal with
      | |- keeps _ (match ?x with _ => _ end) => destruct x
      end ].

Lemma pinned_getCache (v id source : string) (opts : ResolvedCacheOptions) :
  keeps (pinned v) (getCache id source opts).
Proof.
  unfold getCache, validate, prepareCacheDir, isWritable,
    Host.mkdir_recursive, Host.access_W_OK, Host.Bun_file_exists,
    Host.Bun_file_text, Host.existsSync, Host.readFile.
  repeat pinned_step.
Qed.

Lemma pinned_setCache (v id source : string) (data : option string)
    (opts : ResolvedCacheOptions) :
  keeps (pinned v) (setCache id source data opts).
Proof.
  unfold setCache, prepareCacheDir, isWritable, Host.mkdir_recursive,
    Host.access_W_OK, Host.rm, Host.Bun_write_createPath, Host.writeFile.
  repeat pinned_step.
Qed.

Lemma pinned_runCall (v : string) (c : CacheCall) :
  keeps (pinned v) (runCall c).
Proof.
  destruct c; cbn; [|apply pinned_setCache].
  apply keeps_bind; [apply _ | apply pinned_getCache | intros ?].
  by apply keeps_ret; apply _.
Qed.

(** X3. The compiler version is resolved once per process. Once the module
    variable holds a version, it holds that version after every later run of
    cache calls, and none of them reads typia's package.json again, whatever
    is installed by then. *)
Theorem typiaVersion_is_resolved_once (v : string) (calls : list CacheCall)
    (w : World) :
  typiaVersion w = Some v →
  typiaVersion (runCalls calls w) = Some v
  ∧ ∃ evs, trace (runCalls calls w) = (trace w ++ evs)%list
           ∧ Forall (λ e, isPackageRead e = false) evs.
Proof.
  revert w. induction calls as [|c calls IH]; intros w Hv.
  - by apply (pinned_refl v w).
  - change (runCalls (c :: calls) w) with (runCalls calls (runCall c w).2).
    destruct (runCall c w) as [r w1] eqn:Hrun. cbn [snd].
    apply (pinned_trans v w w1); [|by intros Hv1; apply IH|done].
    by apply (pinned_runCall v c w r w1).
Qed.

(** X4. A process keeps stamping the version it memoised: with the module
    variable at [v], a successful [setCache] stores the data followed by the
    marker for [v], even when another typia has been installed since. *)
Theorem setCache_stamps_memoised_version (v id source data : string)
    (opts : ResolvedCacheOptions) (w w1 : World) :
  enable opts = true →
  typiaVersion w = Some v →
  setCache id source (Some data) opts w = (Ok tt, w1) →
  fs w1 !! getCachePath (getKey id source) opts
  = Some (File (data +:+ "/* unplugin-typia-" +:+ v +:+ "-"
                +:+ getKey id source +:+ " */")).
Proof.
  intros Hen Hv Hset.
  destruct (pinned_setCache v id source (Some data) opts w _ w1 Hset Hv)
    as [Hv1 _].
  apply CacheFacts.setCache_Ok_inv in Hset as (v' & _ & Hv' & _ & ->); [|done].
  rewrite Hv1 in Hv'. by subst v'.
Qed.

End version_facts.

Section cache_errors.
Context `{Platform}.
Import Cache.



(** Where a successful preparation leaves the file system: as it was, but
    for the base directory. *)
Lemma prepareCacheDir_Ok_elsewhere (opts : ResolvedCacheOptions)
    (w w' : World) (p : string) :
  prepareCacheDir opts w = (Ok tt, w') →
  p ≠ base opts → fs w' !! p = fs w !! p.
Proof.
  unfold prepareCacheDir, isWritable, Host.mkdir_recursive, Host.access_W_OK.
  run. destruct (cacheDir w) as [d|]; [by intros [= <-]|].
  destruct (fs w !! base opts) as [[c|]|] eqn:Hb; cbn; [done | |].
  - rewrite Hb. destruct (bool_decide _); cbn; [done|]. by intros [= <-].
  - rewrite lookup_insert_eq. destruct (bool_decide _); cbn; [done|].
    intros [= <-] Hne. cbn. by rewrite lookup_insert_ne.
Qed.

(** X6. A miss needs no compiler version. With the cache directory ready and
    nothing stored at the cache path, [getCache] returns null without
    resolving the version: the module variable is as before, and the call
    succeeds even when typia cannot be found. *)
Theorem getCache_miss_needs_no_version (id source : string)
    (opts : ResolvedCacheOptions) (w : World) :
  enable opts = true →
  cacheReady opts w →
  getCachePath (getKey id source) opts ≠ base opts →
  fs w !! getCachePath (getKey id source) opts = None →
  ∃ w', getCache id source opts w = (Ok None, w')
        ∧ typiaVersion w' = typiaVersion w
        ∧ Forall (λ e, isPackageRead e = false)
            (drop (length (trace w)) (trace w')).
Proof.
  intros Hen Hready Hne Hfile. unfold cacheReady in Hready.
  destruct (prepareCacheDir opts w) as [[[]|e] wp] eqn:Hprep; [|done].
  pose proof (prepareCacheDir_Ok_elsewhere _ _ _ _ Hprep Hne) as Hfs.
  rewrite Hfile in Hfs.
  apply CacheFacts.prepareCacheDir_Ok_inv in Hprep as Hinv.
  destruct Hinv as (_ & _ & Hv & _).
  assert (∃ evs, trace wp = (trace w ++ evs)%list
                 ∧ Forall (λ e, isPackageRead e = false) evs)
    as (evs & Htr & Hevs).
  { revert Hprep.
    unfold prepareCacheDir, isWritable, Host.mkdir_recursive,
      Host.access_W_OK. run.
    destruct (cacheDir w) as [d|]; cbn.
    - intros [= <-]. exists []. by rewrite app_nil_r.
    - destruct (fs w !! base opts) as [[c|]|] eqn:Hb; cbn; [done | |].
      + rewrite Hb. destruct (bool_decide _); cbn; [done|].
        intros [= <-]. cbn. exists [EvMkdir (base opts); EvAccess (base opts)].
        split; [by rewrite <- app_assoc | by repeat constructor].
      + rewrite lookup_insert_eq. destruct (bool_decide _); cbn; [done|].
        intros [= <-]. cbn. exists [EvMkdir (base opts); EvAccess (base opts)].
        split; [by rewrite <- app_assoc | by repeat constructor]. }
  unfold getCache. rewrite Hen. cbn.
  rewrite (bind_Ok _ _ _ _ _ Hprep).
  destruct isBun.
  - rewrite (bind_Ok _ _ _ _ _ (HostFacts.Bun_file_exists_run _ _)).
    rewrite Hfs. cbn. eexists. split; [done|]. cbn. split; [done|].
    rewrite Htr, <- app_assoc, drop_app_length.
    apply Forall_app. split; [done | by repeat constructor].
  - rewrite (bind_Ok _ _ _ _ _ (HostFacts.existsSync_run _ _)).
    rewrite Hfs. rewrite bool_decide_eq_false_2 by (by intros [? ?]).
    cbn. eexists. split; [done|]. cbn. split; [done|].
    rewrite Htr, <- app_assoc, drop_app_length.
    apply Forall_app. split; [done | by repeat constructor].
Qed.

(** X7. When typia cannot be resolved and no version is memoised, [setCache]
    throws the resolution error before it touches any entry, and [getCache]
    throws it as soon as an entry is stored at the cache path. *)
Theorem unresolvable_typia_is_an_error (id source content : string)
    (data : option string) (opts : ResolvedCacheOptions) (w : World) :
  enable opts = true →
  cacheReady opts w →
  typiaVersion w = None →
  typiaPkg w = PkgUnresolved →
  (∃ w', setCache id source data opts w = (Throw (ResolveError "typia"), w')
         ∧ sameFiles w w')
  ∧ (fs w !! getCachePath (getKey id source) opts = Some (File content) →
     (getCache id source opts w).1 = Throw (ResolveError "typia")).
Proof.
  intros Hen Hready Hv Hpkg. unfold cacheReady in Hready.
  destruct (prepareCacheDir opts w) as [[[]|e] wp] eqn:Hprep; [|done].
  apply CacheFacts.prepareCacheDir_Ok_inv in Hprep as Hinv.
  destruct Hinv as (_ & _ & Hvp & Hpp & Hfs).
  rewrite Hv in Hvp. rewrite Hpkg in Hpp.
  assert (∀ key w0, typiaVersion w0 = None → typiaPkg w0 = PkgUnresolved →
            getHashComment key w0
            = (Throw (ResolveError "typia"), log (EvReadPackageJSON "typia") w0))
    as Hhc.
  { intros key w0 H0 H1. unfold getHashComment, Host.readPackageJSON_version.
    run. by rewrite H0, H1. }
  split.
  - eexists. split.
    + unfold setCache. rewrite Hen. cbn.
      rewrite (bind_Ok _ _ _ _ _ Hprep).
      by rewrite (bind_Throw _ _ _ _ _ (Hhc _ wp Hvp Hpp)).
    + intros p c. cbn. exact (files_prepareCacheDir _ _ _ _ Hprep p c).
  - intros Hfile.
    assert (fs wp !! getCachePath (getKey id source) opts
            = Some (File content)) as Hfile'.
    { destruct (Hfs (getCachePath (getKey id source) opts)) as [->|[? _]];
        congruence. }
    unfold getCache, validate. rewrite Hen. cbn.
    rewrite (bind_Ok _ _ _ _ _ Hprep).
    destruct isBun.
    + rewrite (bind_Ok _ _ _ _ _ (HostFacts.Bun_file_exists_run _ _)).
      rewrite Hfile'. cbn.
      erewrite bind_Ok by (apply HostFacts.Bun_file_text_file; exact Hfile').
      by erewrite bind_Throw by (by apply Hhc).
    + rewrite (bind_Ok _ _ _ _ _ (HostFacts.existsSync_run _ _)).
      rewrite Hfile'. rewrite bool_decide_eq_true_2 by eauto. cbn.
      erewrite bind_Ok by (apply HostFacts.readFile_file; exact Hfile').
      by erewrite bind_Throw by (by apply Hhc).
Qed.

End cache_errors.

Section key_facts.
Context `{Platform}.
Import Cache.

Lemma decimal_has_no_underscore (d : Decimal.uint) :
  Str.contains "_" (NilZero.string_of_uint d) = false.
Proof.
  assert (∀ d, Str.contains "_" (NilEmpty.string_of_uint d) = false) as Hne.
  { clear d. induction d; cbn; done. }
  destruct d; cbn; try done; apply Hne.
Qed.

(** X8. Equal keys have equal content hashes. As long as the digest holds no
    underscore (a decimal number under Bun, and hexadecimal digits by
    assumption otherwise), two calls that arrive at the same cache key have
    sources with the same hash and identities whose basename pairs join to
    the same text, whatever the identities are. *)
Theorem equal_keys_have_equal_hashes (id1 id2 source1 source2 : string) :
  (isBun = false →
   Str.contains "_" (md5_hex source1) = false
   ∧ Str.contains "_" (md5_hex source2) = false) →
  getKey id1 source1 = getKey id2 source2 →
  hash source1 = hash source2
  ∧ basename (dirname id1) +:+ "_" +:+ basename id1
    = basename (dirname id2) +:+ "_" +:+ basename id2.
Proof.
  intros Hhex Heq.
  assert (Str.contains "_" (hash source1) = false
          ∧ Str.contains "_" (hash source2) = false) as [H1 H2].
  { unfold hash. destruct isBun.
    - split; apply decimal_has_no_underscore.
    - by apply Hhex. }
  unfold getKey in Heq.
  change (?a +:+ "_" +:+ ?h) with (a +:+ String "_" h) in Heq.
  apply (StrFacts.split_at_last "_") in Heq as [Hbase Hhash]; [|done..].
  done.
Qed.

End key_facts.

Section backend_facts.
Context `{Platform}.
Import Cache.

(** X9. The two write backends differ when the directory of the entry is
    missing, as it is once the guard was set for another base. With nothing
    at the cache path and nothing at its directory, [setCache] under Bun
    creates the directory and stores the entry, while under Node it throws
    [ENOENT] and leaves the file system as it was. *)
Theorem setCache_without_parent_directory (id source data : string)
    (opts : ResolvedCacheOptions) (w : World) (v : option string) :
  enable opts = true →
  is_Some (cacheDir w) →
  resolveVersion w = Ok v →
  fs w !! getCachePath (getKey id source) opts = None →
  fs w !! dirname (getCachePath (getKey id source) opts) = None →
  (isBun = true →
   ∃ w', setCache id source (Some data) opts w = (Ok tt, w')
         ∧ fs w' !! getCachePath (getKey id source) opts
           = Some (File (data +:+ hashCommentOf v (getKey id source)))
         ∧ (dirname (getCachePath (getKey id source) opts)
            ≠ getCachePath (getKey id source) opts →
            fs w' !! dirname (getCachePath (getKey id source) opts)
            = Some Directory))
  ∧ (isBun = false →
     ∃ w', setCache id source (Some data) opts w
           = (Throw (IOError "ENOENT" (getCachePath (getKey id source) opts)),
              w')
           ∧ fs w' = fs w).
Proof.
  intros Hen Hcd Hv Hpath Hparent.
  destruct (CacheFacts.getHashComment_run (getKey id source) w v Hv)
    as (wh & Hhc & Hfs & _).
  unfold setCache. rewrite Hen. cbn.
  rewrite (bind_Ok _ _ _ _ _ (CacheFacts.prepareCacheDir_guarded opts w Hcd)).
  rewrite (bind_Ok _ _ _ _ _ Hhc).
  rewrite <- Hfs in Hpath, Hparent.
  split; intros HisBun; rewrite HisBun.
  - unfold Host.Bun_write_createPath. run. rewrite Hpath, Hparent. cbn.
    eexists. split; [done|]. cbn. split.
    + by rewrite lookup_insert_eq.
    + intros Hne. by rewrite lookup_insert_ne, lookup_insert_eq.
  - unfold Host.writeFile. run. rewrite Hpath, Hparent. cbn.
    eexists. split; [done|]. done.
Qed.

End backend_facts.

Section isolation_facts.
Context `{Platform}.
Import Cache.

(** [getCache] as a function of the entry at its cache path. *)
Lemma getCache_answer (id source : string) (opts : ResolvedCacheOptions)
    (w wp : World) (v : option string) :
  enable opts = true →
  prepareCacheDir opts w = (Ok tt, wp) →
  resolveVersion w = Ok v →
  (getCache id source opts w).1
  = entryAnswer (getCachePath (getKey id source) opts) (getKey id source) v
      (fs wp !! getCachePath (getKey id source) opts).
Proof.
  intros Hen Hprep Hv.
  pose proof (CacheFacts.resolveVersion_prepared _ _ _ Hprep) as Hvp.
  rewrite <- Hvp in Hv.
  unfold getCache, validate, entryAnswer. rewrite Hen. cbn.
  rewrite (bind_Ok _ _ _ _ _ Hprep).
  destruct (fs wp !! getCachePath (getKey id source) opts)
    as [[content|]|] eqn:Hfile; destruct isBun.
  - rewrite (bind_Ok _ _ _ _ _ (HostFacts.Bun_file_exists_run _ _)).
    rewrite Hfile. cbn.
    erewrite bind_Ok by (apply HostFacts.Bun_file_text_file; exact Hfile).
    destruct (CacheFacts.getHashComment_run (getKey id source)
                (log (EvBunText (getCachePath (getKey id source) opts))
                   (log (EvBunExists (getCachePath (getKey id source) opts)) wp))
                v Hv) as (wh & Hhc & _).
    rewrite (bind_Ok _ _ _ _ _ Hhc). by destruct (Str.endsWith _ _).
  - rewrite (bind_Ok _ _ _ _ _ (HostFacts.existsSync_run _ _)).
    rewrite Hfile. rewrite bool_decide_eq_true_2 by eauto. cbn.
    erewrite bind_Ok by (apply HostFacts.readFile_file; exact Hfile).
    destruct (CacheFacts.getHashComment_run (getKey id source)
                (log (EvReadFile (getCachePath (getKey id source) opts))
                   (log (EvExistsSync (getCachePath (getKey id source) opts)) wp))
                v Hv) as (wh & Hhc & _).
    rewrite (bind_Ok _ _ _ _ _ Hhc). by destruct (Str.endsWith _ _).
  - rewrite (bind_Ok _ _ _ _ _ (HostFacts.Bun_file_exists_run _ _)).
    by rewrite Hfile.
  - rewrite (bind_Ok _ _ _ _ _ (HostFacts.existsSync_run _ _)).
    rewrite Hfile. rewrite bool_decide_eq_true_2 by eauto. cbn.
    unfold Host.readFile. run. by rewrite Hfile.
  - rewrite (bind_Ok _ _ _ _ _ (HostFacts.Bun_file_exists_run _ _)).
    by rewrite Hfile.
  - rewrite (bind_Ok _ _ _ _ _ (HostFacts.existsSync_run _ _)).
    rewrite Hfile. by rewrite bool_decide_eq_false_2 by (by intros [? ?]).
Qed.

(** X10. Entries are independent. After a [setCache] that returned, whether
    it stored or deleted, [getCache] for any other cache path under the same
    options answers exactly as it would have answered before. *)
Theorem setCache_leaves_other_entries (id1 source1 id2 source2 : string)
    (data : option string) (opts : ResolvedCacheOptions) (w w1 : World) :
  enable opts = true →
  setCache id1 source1 data opts w = (Ok tt, w1) →
  getCachePath (getKey id2 source2) opts
  ≠ getCachePath (getKey id1 source1) opts →
  (getCache id2 source2 opts w1).1 = (getCache id2 source2 opts w).1.
Proof.
  intros Hen Hset Hne.
  unfold setCache in Hset. rewrite Hen in Hset. cbn in Hset.
  apply bind_Ok_inv in Hset as ([] & wp & Hprep & Hset).
  apply bind_Ok_inv in Hset as (hc & wh & Hhc & Hset).
  apply CacheFacts.getHashComment_Ok_inv in Hhc
    as (v & Hvp & _ & Hfs & Hcd & _ & Hvh).
  pose proof (CacheFacts.resolveVersion_prepared _ _ _ Hprep) as Hv.
  rewrite Hvp in Hv.
  apply CacheFacts.prepareCacheDir_Ok_inv in Hprep as Hinv.
  destruct Hinv as (Hguard & _).
  rewrite (getCache_answer id2 source2 opts w wp v Hen Hprep (eq_sym Hv)).
  assert (is_Some (cacheDir w1) ∧ resolveVersion w1 = Ok v
          ∧ entryAnswer (getCachePath (getKey id2 source2) opts)
              (getKey id2 source2) v
              (fs w1 !! getCachePath (getKey id2 source2) opts)
            = entryAnswer (getCachePath (getKey id2 source2) opts)
                (getKey id2 source2) v
                (fs wp !! getCachePath (getKey id2 source2) opts))
    as (Hguard1 & Hv1 & Hanswer).
  { rewrite <- Hcd in Hguard. rewrite <- Hfs.
    destruct data as [data|].
    - destruct isBun eqn:HisBun.
      + revert Hset. unfold Host.Bun_write_createPath. run.
        destruct (fs wh !! getCachePath (getKey id1 source1) opts)
          as [[c|]|] eqn:Hpath,
          (fs wh !! dirname (getCachePath (getKey id1 source1) opts))
          as [[c'|]|] eqn:Hparent;
          intros [= <-]; cbn; (split; [done|]); (split; [done|]);
          rewrite lookup_insert_ne by done;
          (destruct (decide (dirname (getCachePath (getKey id1 source1) opts)
                             = getCachePath (getKey id2 source2) opts))
             as [Heq|Hd];
           [rewrite <- Heq, lookup_insert_eq, Hparent;
            unfold entryAnswer; by rewrite HisBun
           |by rewrite lookup_insert_ne]).
      + apply HostFacts.writeFile_Ok_inv in Hset as ->. cbn.
        by rewrite lookup_insert_ne.
    - revert Hset. unfold Host.rm. run.
      destruct (fs wh !! getCachePath (getKey id1 source1) opts)
        as [[c|]|]; intros [= <-]; cbn.
      by rewrite lookup_delete_ne. }
  rewrite <- Hanswer.
  by apply getCache_answer; [|apply CacheFacts.prepareCacheDir_guarded|].
Qed.

End isolation_facts.

(** ** More about the default cache directory *)

Section cacheDir_facts.
Context `{Platform}.
Context (tmpdir : gmap string string → string).

Local Abbreviation getCacheDir := (CacheDir.getCacheDir tmpdir).

(** X11. [getCacheDir] leaves the process as it found it: when it removes
    [TMPDIR] to ask for the temporary directory again, it puts the same
    value back, and no other variable nor the working directory changes. *)
Theorem getCacheDir_restores_environment (p : Process) :
  (getCacheDir p).2 = p.
Proof.
  unfold CacheDir.getCacheDir. destruct p as [e c]. cbn.
  destruct (e !! "TMPDIR") as [t|] eqn:Ht; [|done].
  destruct (String.eqb _ _); [|done]. cbn.
  by rewrite insert_delete_eq, insert_id.
Qed.

(** X12. The pnpm workaround. The result is always [unplugin_typia] joined
    to a temporary directory; when [TMPDIR] is set, that directory is the
    working directory only if the host names the working directory as
    temporary directory even without [TMPDIR]. *)
Theorem getCacheDir_avoids_working_directory (p : Process) (t : string) :
  env p !! "TMPDIR" = Some t →
  tmpdir (delete "TMPDIR" (env p)) ≠ cwd p →
  ∃ d, (getCacheDir p).1 = join d "unplugin_typia"
       ∧ d ≠ cwd p
       ∧ (d = tmpdir (env p) ∨ d = tmpdir (delete "TMPDIR" (env p))).
Proof.
  intros Ht Hne. unfold CacheDir.getCacheDir. rewrite Ht.
  destruct (String.eqb_spec (tmpdir (env p)) (cwd p)) as [Heq|Hdiff]; cbn.
  - exists (tmpdir (delete "TMPDIR" (env p))). auto.
  - exists (tmpdir (env p)). auto.
Qed.

End cacheDir_facts.

(** ** More about the Bun adapter *)

Section more_bun_facts.
Context `{Platform}.
Context {Options : Type} (emptyOptions : Options).
Context (resolveOptions : Options → ResolvedOptions).
Context (unplugin_raw : Options → UnpluginOptions).
Import Bun.

Local Abbreviation setup := (Bun.setup emptyOptions resolveOptions unplugin_raw).

(** Normalising the filters does nothing to the world. *)
Lemma filters_pure (i : JsValue) (w w' : World)
    (r : Result (option (list RegExp))) :
  filters i w = (r, w') → w' = w.
Proof.
  destruct i; cbn; try (by intros [= _ <-]).
  - unfold RegExp_new. run. destruct (RegExp_wellformed s); by intros [= _ <-].
  - destruct (_ && _); by intros [= _ <-].
Qed.

Lemma filter_of_registrations (cb : string → M OnLoadResult)
    (patterns : list RegExp) :
  filter <$> ((λ f, {| filter := f; callback := cb |}) <$> patterns) = patterns.
Proof. induction patterns as [|r rs IH]; cbn; [done | by rewrite IH]. Qed.

(** X13. What [setup] registers. When the filters normalise to a list, the
    [buildStart] hook (if there is one) runs first, in the world [setup]
    was called in; if it throws, [setup] throws the same error; if it
    returns, [setup] returns one registration per filter, in the order of
    the list and each with the transform callback, followed by the typia
    pattern unless [forceImportTypiaMjs] is false. *)
Theorem setup_registers_each_filter (bunOptions : option (BunOptions Options))
    (patterns : list RegExp) (w w1 : World) (started : Result unit) :
  (filters (include (resolveOptions
                       (from_option options emptyOptions bunOptions))) w).1
  = Ok (Some patterns) →
  match buildStart (unplugin_raw (from_option options emptyOptions bunOptions))
  with
  | Some hook => hook
  | None => ret tt
  end w = (started, w1) →
  match started with
  | Throw e => setup bunOptions w = (Throw e, w1)
  | Ok _ =>
      ∃ regs,
        setup bunOptions w = (Ok regs, w1)
        ∧ filter <$> regs
          = (patterns
             ++ if default true (bunOptions ≫= forceImportTypiaMjs)
                then [typiaLibJs] else [])%list
        ∧ Forall (λ reg, callback reg
                         = onLoadTransform
                             (unplugin_raw
                                (from_option options emptyOptions bunOptions)))
            (take (length patterns) regs)
  end.
Proof.
  intros Hf Hstart.
  destruct (filters _ w) as [r wf] eqn:Hfilters. cbn in Hf. subst r.
  pose proof (filters_pure _ _ _ _ Hfilters) as ->.
  unfold Bun.setup. rewrite (bind_Ok _ _ _ _ _ Hfilters).
  destruct started as [[]|e].
  - rewrite (bind_Ok _ _ _ _ _ Hstart). eexists. split; [done|]. split.
    + rewrite fmap_app, filter_of_registrations.
      by destruct (default true _).
    + rewrite take_app_length' by (by rewrite length_fmap).
      apply Forall_fmap, Forall_true. done.
  - by rewrite (bind_Throw _ _ _ _ _ Hstart).
Qed.

(** X14. Errors of the transform callback. A file that cannot be read makes
    the callback throw the read error without calling the transform; with no
    [transform] hook, every readable file makes it throw "transform is not
    defined"; and an error thrown by the hook comes out of the callback
    unchanged. *)
Theorem onLoadTransform_errors (unpluginRaw : UnpluginOptions)
    (path : string) (w : World) :
  (fs w !! path = None →
   onLoadTransform unpluginRaw path w
   = (Throw (IOError "ENOENT" path), log (EvBunText path) w))
  ∧ (∀ source,
       fs w !! path = Some (File source) →
       transform unpluginRaw = None →
       onLoadTransform unpluginRaw path w
       = (Throw (Error "transform is not defined"), log (EvBunText path) w))
  ∧ (∀ source hook e w',
       fs w !! path = Some (File source) →
       transform unpluginRaw = Some hook →
       hook source path
         (log (EvTransform source path) (log (EvBunText path) w))
       = (Throw e, w') →
       onLoadTransform unpluginRaw path w = (Throw e, w')).
Proof.
  split; [|split].
  - intros Hfile. unfold onLoadTransform, Host.Bun_file_text. run.
    by rewrite Hfile.
  - intros source Hfile Hnone. unfold onLoadTransform.
    rewrite (bind_Ok _ _ _ _ _ (HostFacts.Bun_file_text_file _ _ _ Hfile)).
    unfold taggedTransform. by rewrite Hnone.
  - intros source hook e w' Hfile Hhook Hrun. unfold onLoadTransform.
    rewrite (bind_Ok _ _ _ _ _ (HostFacts.Bun_file_text_file _ _ _ Hfile)).
    unfold taggedTransform. rewrite Hhook. run. by rewrite Hrun.
Qed.

(** X15. Edges of the typia rewrite. When the [.mjs] sibling does not
    exist, the callback throws [ENOENT] for the sibling, whether or not the
    [.js] file itself exists: there is no fallback. And for a path that does
    not end in [.js], the path is left as it is and the file itself is
    served. *)
Theorem onLoadTypiaMjs_edges (w : World) :
  (∀ stem,
     fs w !! (stem +:+ ".mjs") = None →
     onLoadTypiaMjs (stem +:+ ".js") w
     = (Throw (IOError "ENOENT" (stem +:+ ".mjs")),
        log (EvBunText (stem +:+ ".mjs")) w))
  ∧ (∀ path text,
       Str.endsWith path ".js" = false →
       fs w !! path = Some (File text) →
       onLoadTypiaMjs path w
       = (Ok {| contents := text |}, log (EvBunText path) w)).
Proof.
  split.
  - intros stem Hfile. unfold onLoadTypiaMjs.
    rewrite StrFacts.replace_js_end_js.
    unfold Host.Bun_file_text. run. by rewrite Hfile.
  - intros path text Hends Hfile. unfold onLoadTypiaMjs, Str.replace_js_end.
    rewrite Hends.
    by rewrite (bind_Ok _ _ _ _ _ (HostFacts.Bun_file_text_file _ _ _ Hfile)).
Qed.

End more_bun_facts.

(** ** The Next.js wrapper *)

Section next_facts.
Context {Options Plugin Rest WebpackOptions Settings : Type}.
Context (webpack : Options → Plugin).
Context (noSettings : Settings).

Local Abbreviation next := (Next.next (Rest:=Rest) (WebpackOptions:=WebpackOptions) webpack noSettings).
Local Abbreviation nextAll := (Next.nextAll (Rest:=Rest) (WebpackOptions:=WebpackOptions) webpack noSettings).

(** One application: the plugin is put in front, then the wrapped
    configuration's own [webpack] function, if any, takes over. *)
Lemma callWebpack_next
    (nextConfig : NextConfig Plugin Rest WebpackOptions Settings)
    (options : Options) (config : WebpackConfig Plugin Rest)
    (webpackOptions : WebpackOptions) :
  Next.callWebpack (next (Some nextConfig) options) config webpackOptions
  = Next.callWebpack nextConfig (Next.unshift_plugin (webpack options) config)
      webpackOptions.
Proof. reflexivity. Qed.

(** X16. Wrapping composes. After a Next.js configuration has been wrapped
    once for each of a list of options, its [webpack] function hands the
    user's own function (or returns, when there is none) the configuration
    with one typia plugin per wrapping in front of the plugins it had, the
    first wrapping's plugin first; a configuration whose [plugins] is not an
    array is handed over untouched; and the other settings are the user's. *)
Theorem next_wrappings_compose
    (nextConfig : NextConfig Plugin Rest WebpackOptions Settings)
    (optionsList : list Options) (config : WebpackConfig Plugin Rest)
    (webpackOptions : WebpackOptions) :
  settings (nextAll nextConfig optionsList) = settings nextConfig
  ∧ (∀ array,
       plugins config = Some array →
       Next.callWebpack (nextAll nextConfig optionsList) config webpackOptions
       = Next.callWebpack nextConfig
           {| plugins := Some ((webpack <$> optionsList) ++ array)%list;
              otherFields := otherFields config |}
           webpackOptions)
  ∧ (plugins config = None →
     Next.callWebpack (nextAll nextConfig optionsList) config webpackOptions
     = Next.callWebpack nextConfig config webpackOptions).
Proof.
  revert nextConfig config.
  induction optionsList as [|o os IH]; intros nextConfig config.
  - split; [done|]. split; [|done].
    intros array Harray. cbn. by destruct config; cbn in *; subst.
  - change (nextAll nextConfig (o :: os))
      with (nextAll (next (Some nextConfig) o) os).
    destruct (IH (next (Some nextConfig) o) config) as (Hs & Harr & Hnone).
    split; [by rewrite Hs|]. split.
    + intros array Harray. rewrite (Harr array Harray).
      by rewrite callWebpack_next.
    + intros Hno. rewrite (Hnone Hno), callWebpack_next.
      unfold Next.unshift_plugin. by rewrite Hno.
Qed.

End next_facts.

(** ** The further properties on the sample platforms *)


Lemma second_entry_leaves_first :
  fs SampleWorlds.storedBoth !! Sample.entryPath
  = Some (File "const x = 2/* unplugin-typia-6.0.0-src_a.ts_38450 */")
  ↔ fs Sample.stored !! Sample.entryPath
    = Some (File "const x = 2/* unplugin-typia-6.0.0-src_a.ts_38450 */").
Proof.
  apply (setCache_changes_only_its_entry (H:=Sample.node)
           SampleWorlds.otherId SampleWorlds.otherSource (Some "const y = 2")
           Sample.cacheOn Sample.stored SampleWorlds.storedBoth (Ok tt)).
  - vm_compute. reflexivity.
  - vm_compute. discriminate.
Defined.

Lemma upgrade_on_disk_is_not_noticed :
  typiaVersion
    (runCalls (H:=Sample.node)
       [CallSet Sample.id Sample.source (Some "const x = 3") Sample.cacheOn;
        CallGet Sample.id Sample.source Sample.cacheOn]
       SampleWorlds.upgradedOnDisk)
  = Some "6.0.0"
  ∧ ∃ evs,
      trace
        (runCalls (H:=Sample.node)
           [CallSet Sample.id Sample.source (Some "const x = 3") Sample.cacheOn;
            CallGet Sample.id Sample.source Sample.cacheOn]
           SampleWorlds.upgradedOnDisk)
      = (trace SampleWorlds.upgradedOnDisk ++ evs)%list
      ∧ Forall (λ e, isPackageRead e = false) evs.
Proof.
  apply (typiaVersion_is_resolved_once (H:=Sample.node) "6.0.0"). reflexivity.
Defined.

Lemma upgrade_on_disk_old_stamp :
  fs (Cache.setCache (H:=Sample.node) Sample.id Sample.source
        (Some "const x = 3") Sample.cacheOn SampleWorlds.upgradedOnDisk).2
    !! Cache.getCachePath (H:=Sample.node)
         (Cache.getKey (H:=Sample.node) Sample.id Sample.source) Sample.cacheOn
  = Some (File ("const x = 3" +:+ "/* unplugin-typia-" +:+ "6.0.0" +:+ "-"
                +:+ Cache.getKey (H:=Sample.node) Sample.id Sample.source
                +:+ " */")).
Proof.
  apply (setCache_stamps_memoised_version (H:=Sample.node) "6.0.0" Sample.id
           Sample.source "const x = 3" Sample.cacheOn
           SampleWorlds.upgradedOnDisk).
  - reflexivity.
  - reflexivity.
  - vm_compute. reflexivity.
Defined.


Lemma miss_without_typia :
  ∃ w',
    Cache.getCache (H:=Sample.node) Sample.id Sample.source Sample.cacheOn
      SampleWorlds.noTypia
    = (Ok None, w')
    ∧ typiaVersion w' = typiaVersion SampleWorlds.noTypia
    ∧ Forall (λ e, isPackageRead e = false)
        (drop (length (trace SampleWorlds.noTypia)) (trace w')).
Proof.
  apply (getCache_miss_needs_no_version (H:=Sample.node) Sample.id
           Sample.source Sample.cacheOn SampleWorlds.noTypia).
  - reflexivity.
  - vm_compute. reflexivity.
  - vm_compute. discriminate.
  - vm_compute. reflexivity.
Defined.

Lemma hit_without_typia :
  (Cache.getCache (H:=Sample.node) Sample.id Sample.source Sample.cacheOn
     SampleWorlds.noTypiaStored).1
  = Throw (ResolveError "typia").
Proof.
  apply (unresolvable_typia_is_an_error (H:=Sample.node) Sample.id
           Sample.source
           "const x = 2/* unplugin-typia-6.0.0-src_a.ts_38450 */" None
           Sample.cacheOn SampleWorlds.noTypiaStored).
  - reflexivity.
  - vm_compute. reflexivity.
  - reflexivity.
  - reflexivity.
  - vm_compute. reflexivity.
Defined.

Lemma underscore_collision_same_hash :
  Cache.hash (H:=Sample.bun) "s" = Cache.hash (H:=Sample.bun) "s"
  ∧ basename (Platform:=Sample.bun) (dirname (Platform:=Sample.bun) "/x/a_b/c")
    +:+ "_" +:+ basename (Platform:=Sample.bun) "/x/a_b/c"
    = basename (Platform:=Sample.bun) (dirname (Platform:=Sample.bun) "/x/a/b_c")
      +:+ "_" +:+ basename (Platform:=Sample.bun) "/x/a/b_c".
Proof.
  apply (equal_keys_have_equal_hashes (H:=Sample.bun)).
  - discriminate.
  - vm_compute. reflexivity.
Defined.

Lemma other_base_under_node :
  ∃ w',
    Cache.setCache (H:=Sample.node) Sample.id Sample.source (Some "const x = 2")
      Sample.cacheElsewhere Sample.stored
    = (Throw
         (IOError "ENOENT"
            (Cache.getCachePath (H:=Sample.node)
               (Cache.getKey (H:=Sample.node) Sample.id Sample.source)
               Sample.cacheElsewhere)),
       w')
    ∧ fs w' = fs Sample.stored.
Proof.
  apply (setCache_without_parent_directory (H:=Sample.node) Sample.id
           Sample.source "const x = 2" Sample.cacheElsewhere Sample.stored
           (Some "6.0.0")).
  - reflexivity.
  - vm_compute. eauto.
  - reflexivity.
  - vm_compute. reflexivity.
  - vm_compute. reflexivity.
  - reflexivity.
Defined.

(** The same call under Bun stores the entry and creates the directory. *)
Example other_base_under_bun :
  Cache.setCache (H:=Sample.bun) Sample.id Sample.source (Some "const x = 2")
    Sample.cacheElsewhere Sample.stored
  = (Ok tt,
     set_fs (insert "/var/other/src_a.ts_38450"
               (File "const x = 2/* unplugin-typia-6.0.0-src_a.ts_38450 */"))
       (set_fs (insert "/var/other" Directory)
          (log (EvBunWrite "/var/other/src_a.ts_38450") Sample.stored))).
Proof. vm_compute. reflexivity. Qed.

Lemma first_entry_after_second :
  (Cache.getCache (H:=Sample.node) Sample.id Sample.source Sample.cacheOn
     SampleWorlds.storedBoth).1
  = (Cache.getCache (H:=Sample.node) Sample.id Sample.source Sample.cacheOn
       Sample.stored).1.
Proof.
  apply (setCache_leaves_other_entries (H:=Sample.node) SampleWorlds.otherId
           SampleWorlds.otherSource Sample.id Sample.source
           (Some "const y = 2") Sample.cacheOn Sample.stored
           SampleWorlds.storedBoth).
  - reflexivity.
  - vm_compute. reflexivity.
  - vm_compute. discriminate.
Defined.

(** pnpm's [TMPDIR]: the cache goes to the system's temporary directory, and
    the variable is still set afterwards. *)
Example getCacheDir_under_pnpm :
  CacheDir.getCacheDir (H:=Sample.node) SampleProcess.posix_tmpdir
    SampleProcess.underPnpm
  = ("/tmp/unplugin_typia", SampleProcess.underPnpm).
Proof. vm_compute. reflexivity. Qed.

Lemma pnpm_tmpdir_is_avoided :
  ∃ d,
    (CacheDir.getCacheDir (H:=Sample.node) SampleProcess.posix_tmpdir
       SampleProcess.underPnpm).1
    = join (Platform:=Sample.node) d "unplugin_typia"
    ∧ d ≠ cwd SampleProcess.underPnpm
    ∧ (d = SampleProcess.posix_tmpdir (env SampleProcess.underPnpm)
       ∨ d = SampleProcess.posix_tmpdir
               (delete "TMPDIR" (env SampleProcess.underPnpm))).
Proof.
  apply (getCacheDir_avoids_working_directory (H:=Sample.node)
           SampleProcess.posix_tmpdir SampleProcess.underPnpm "/proj").
  - vm_compute. reflexivity.
  - vm_compute. discriminate.
Defined.

Lemma default_setup_registrations :
  ∃ regs,
    Sample.setup None Sample.project = (Ok regs, Sample.project)
    ∧ filter <$> regs
      = ([RegExpOf "\.[cm]?[jt]sx?$"]
         ++ if default true (None ≫= forceImportTypiaMjs (Options:=option JsValue))
            then [Bun.typiaLibJs] else [])%list
    ∧ Forall (λ reg, callback reg = Bun.onLoadTransform (Sample.raw None))
        (take (length [RegExpOf "\.[cm]?[jt]sx?$"]) regs).
Proof.
  apply (setup_registers_each_filter (H:=Sample.bun) None Sample.resolve
           Sample.raw None [RegExpOf "\.[cm]?[jt]sx?$"] Sample.project
           Sample.project (Ok tt)).
  - reflexivity.
  - reflexivity.
Defined.

Lemma missing_source_file :
  Bun.onLoadTransform (Sample.raw None) "/proj/src/missing.ts" Sample.project
  = (Throw (IOError "ENOENT" "/proj/src/missing.ts"),
     log (EvBunText "/proj/src/missing.ts") Sample.project).
Proof.
  apply (onLoadTransform_errors (Sample.raw None) "/proj/src/missing.ts"
           Sample.project).
  vm_compute. reflexivity.
Defined.

Lemma missing_mjs_sibling :
  Bun.onLoadTypiaMjs "/proj/node_modules/typia/lib/other.js" Sample.project
  = (Throw (IOError "ENOENT" "/proj/node_modules/typia/lib/other.mjs"),
     log (EvBunText "/proj/node_modules/typia/lib/other.mjs") Sample.project).
Proof.
  apply (proj1 (onLoadTypiaMjs_edges Sample.project)
           "/proj/node_modules/typia/lib/other").
  vm_compute. reflexivity.
Defined.

Lemma two_wrappings_sample :
  Next.callWebpack
    (Next.nextAll SampleWorlds.typiaPlugin [] SampleWorlds.userNextConfig
       ["a"; "b"])
    {| plugins := Some ["react"]; otherFields := tt |} tt
  = Next.callWebpack SampleWorlds.userNextConfig
      {| plugins := Some ((SampleWorlds.typiaPlugin <$> ["a"; "b"])
                          ++ ["react"])%list;
         otherFields := tt |}
      tt.
Proof.
  apply (next_wrappings_compose SampleWorlds.typiaPlugin []
           SampleWorlds.userNextConfig ["a"; "b"]
           {| plugins := Some ["react"]; otherFields := tt |} tt).
  reflexivity.
Defined.

Example two_wrappings_plugins :
  plugins
    (Next.callWebpack
       (Next.nextAll SampleWorlds.typiaPlugin [] SampleWorlds.userNextConfig
          ["a"; "b"])
       {| plugins := Some ["react"]; otherFields := tt |} tt)
  = Some ["typia:a"; "typia:b"; "react"; "user"].
Proof. reflexivity. Qed.
